(** * Drive-through assistant: the order state engine and its remote client

    A shallow embedding of [drive_through_assistant.py].  Python values are
    the JSON fragment the program handles, exceptions are values of a
    result type, the assistant object and the standard output are threaded
    through a state-and-exception monad, and the things the program does
    not compute itself ([requests.post], [json.loads], [json.dumps] and the
    encoding of the standard output) are parameters of the model. *)

From Stdlib Require Import ZArith String List Ascii Bool Lia Permutation.
From Stdlib Require Import PrimFloat FloatOps SpecFloat.
Import ListNotations.

Set Warnings "-register-all".
Local Open Scope string_scope.
Local Open Scope Z_scope.

(** ** Python values and exceptions *)

Module Py.

(** The values that [json.loads] produces and [json.dumps] consumes.  A
    [dict] is represented by its [items()] in insertion order; its keys are
    strings (JSON object keys) and pairwise distinct. *)
Inductive pyval : Type :=
| PNone
| PBool (b : bool)
| PInt (z : Z)
| PFloat (f : float)
| PStr (s : string)
| PList (l : list pyval)
| PDict (d : list (string * pyval)).

Definition dict : Type := list (string * pyval).

(** The exception classes that occur.  [RequestException] stands for
    [requests.exceptions.RequestException] and all of its subclasses and
    carries [str(e)]; [PlainException] is an instance of [Exception]
    itself.  Every class here derives from [Exception]. *)
Inductive exn : Type :=
| RequestException (str_e : string)
| JSONDecodeError
| ValueError (msg : string)
| PlainException (msg : string)
| AttributeError
| TypeError
| KeyError
| IndexError
| OverflowError
| UnicodeEncodeError
| OtherException (cls : string).

Inductive result (A : Type) : Type :=
| Ok (a : A)
| Raise (e : exn).
Arguments Ok {A} a.
Arguments Raise {A} e.

Definition rbind {A B} (r : result A) (k : A -> result B) : result B :=
  match r with
  | Ok a => k a
  | Raise e => Raise e
  end.

(** [try: body except C as e: handler], for a handler guarded by the
    class test [catches]. *)
Definition rtry {A} (body : result A) (catches : exn -> bool)
    (handler : exn -> result A) : result A :=
  match body with
  | Ok a => Ok a
  | Raise e => if catches e then handler e else Raise e
  end.

Definition is_RequestException (e : exn) : bool :=
  match e with RequestException _ => true | _ => false end.

Definition is_JSONDecodeError (e : exn) : bool :=
  match e with JSONDecodeError => true | _ => false end.

(** *** Dictionaries *)

Fixpoint dict_get (k : string) (d : dict) : option pyval :=
  match d with
  | [] => None
  | (k', v) :: d' => if String.eqb k k' then Some v else dict_get k d'
  end.

(** [k in d] *)
Definition dict_mem (k : string) (d : dict) : bool :=
  match dict_get k d with Some _ => true | None => false end.

(** [d.keys()] *)
Definition dict_keys (d : dict) : list string := map fst d.

(** *** Strings *)

Definition is_substring (needle hay : string) : bool :=
  match String.index 0 needle hay with Some _ => true | None => false end.

(** [s.replace(old, new)] for a non-empty [old]: the occurrences are
    replaced left to right and do not overlap.  [skip] counts the
    characters of a matched occurrence still to be dropped. *)
Fixpoint replace_from (old new : string) (skip : nat) (s : string) : string :=
  match s with
  | EmptyString => EmptyString
  | String c s' =>
      match skip with
      | S n => replace_from old new n s'
      | O =>
          if String.prefix old s
          then new ++ replace_from old new (Nat.pred (String.length old)) s'
          else String c (replace_from old new O s')
      end
  end.

Definition str_replace (s old new : string) : string :=
  replace_from old new O s.

(** A [str] is represented by the bytes of its UTF-8 encoding (a lone
    surrogate by the three bytes that the same scheme gives it), so that a
    character below 128 is one byte and no such byte occurs inside another
    character. *)
Fixpoint is_ascii (s : string) : bool :=
  match s with
  | EmptyString => true
  | String c s' => (nat_of_ascii c <? 128)%nat && is_ascii s'
  end.

(** The characters [str.strip()] removes are those of [str.isspace()]:
    U+0009 to U+000D, U+001C to U+0020, U+0085, U+00A0, U+1680, U+2000 to
    U+200A, U+2028, U+2029, U+202F, U+205F and U+3000.  The three tests
    below recognise their encodings of one, two and three bytes. *)
Definition ascii_space (x : nat) : bool :=
  ((9 <=? x)%nat && (x <=? 13)%nat) || ((28 <=? x)%nat && (x <=? 32)%nat).

Definition two_byte_space (x y : nat) : bool :=
  ((y =? 133)%nat || (y =? 160)%nat) && (x =? 194)%nat.

Definition three_byte_space (x y z : nat) : bool :=
  ((z =? 128)%nat && (((x =? 225)%nat && (y =? 154)%nat)
                      || ((x =? 227)%nat && (y =? 128)%nat)))
  || ((((128 <=? z)%nat && (z <=? 138)%nat)
       || (z =? 168)%nat || (z =? 169)%nat || (z =? 175)%nat)
      && (x =? 226)%nat && (y =? 128)%nat)
  || ((z =? 159)%nat && (x =? 226)%nat && (y =? 129)%nat).

(** The number of bytes of the whitespace character at the head of [s],
    and 0 when [s] does not start with one. *)
Definition space_width (s : string) : nat :=
  match s with
  | EmptyString => 0
  | String a s1 =>
      if ascii_space (nat_of_ascii a) then 1
      else match s1 with
           | EmptyString => 0
           | String b s2 =>
               if two_byte_space (nat_of_ascii a) (nat_of_ascii b) then 2
               else match s2 with
                    | EmptyString => 0
                    | String c _ =>
                        if three_byte_space (nat_of_ascii a) (nat_of_ascii b)
                             (nat_of_ascii c)
                        then 3 else 0
                    end
           end
  end.

(** [s.lstrip()]; [skip] counts the bytes of a whitespace character still
    to be dropped. *)
Fixpoint lstrip_from (skip : nat) (s : string) : string :=
  match s with
  | EmptyString => EmptyString
  | String _ s' =>
      match skip with
      | S n => lstrip_from n s'
      | O => match space_width s with
             | O => s
             | S n => lstrip_from n s'
             end
      end
  end.

Definition lstrip (s : string) : string := lstrip_from 0 s.

(** Whether [s] is made of whitespace characters only. *)
Definition all_space (s : string) : bool :=
  match lstrip s with EmptyString => true | _ => false end.

(** [s.rstrip()]: the text up to its longest suffix of whitespace. *)
Fixpoint rstrip (s : string) : string :=
  match s with
  | EmptyString => EmptyString
  | String c s' => if all_space s then EmptyString else String c (rstrip s')
  end.

Definition str_strip (s : string) : string := rstrip (lstrip s).

(** [sep.join(parts)] *)
Fixpoint str_join (sep : string) (parts : list string) : string :=
  match parts with
  | [] => EmptyString
  | [p] => p
  | p :: rest => p ++ sep ++ str_join sep rest
  end.

(** *** Container operations on arbitrary values *)

(** [needle in v] for a string [needle]: key membership in a dict, element
    membership in a list, substring test in a string, and [TypeError] on
    values that are not iterable. *)
Definition py_in (needle : string) (v : pyval) : result bool :=
  match v with
  | PDict d => Ok (dict_mem needle d)
  | PList l =>
      Ok (existsb (fun x => match x with
                            | PStr s => String.eqb s needle
                            | _ => false
                            end) l)
  | PStr s => Ok (is_substring needle s)
  | _ => Raise TypeError
  end.

(** [len(v)] *)
Definition py_len (v : pyval) : result Z :=
  match v with
  | PDict d => Ok (Z.of_nat (List.length d))
  | PList l => Ok (Z.of_nat (List.length l))
  | PStr s => Ok (Z.of_nat (String.length s))
  | _ => Raise TypeError
  end.

(** [v[key]] for a string [key] *)
Definition py_getitem (v : pyval) (key : string) : result pyval :=
  match v with
  | PDict d => match dict_get key d with
               | Some x => Ok x
               | None => Raise KeyError
               end
  | _ => Raise TypeError
  end.

(** [v[0]]: the first element of a list, the first character of a string;
    a dict with string keys has no key [0]. *)
Definition py_first (v : pyval) : result pyval :=
  match v with
  | PList (x :: _) => Ok x
  | PList [] => Raise IndexError
  | PStr (String c _) => Ok (PStr (String c EmptyString))
  | PStr EmptyString => Raise IndexError
  | PDict _ => Raise KeyError
  | _ => Raise TypeError
  end.

(** *** Arithmetic *)

(** The numeric view of a value: [bool] is a subclass of [int]. *)
Inductive number : Type :=
| NInt (z : Z)
| NFloat (f : float).

Definition as_number (v : pyval) : option number :=
  match v with
  | PBool b => Some (NInt (if b then 1 else 0))
  | PInt z => Some (NInt z)
  | PFloat f => Some (NFloat f)
  | _ => None
  end.

(** [float(z)]: the nearest binary64 value, ties to even, and
    [OverflowError] when that is not finite. *)
Definition int_to_float (z : Z) : result float :=
  match binary_normalize prec emax z 0 false with
  | S754_infinity _ => Raise OverflowError
  | S754_nan => Raise OverflowError
  | x => Ok (SF2Prim x)
  end.

Definition arith (opZ : Z -> Z -> Z) (opF : float -> float -> float)
    (a b : number) : result number :=
  match a, b with
  | NInt x, NInt y => Ok (NInt (opZ x y))
  | NFloat x, NFloat y => Ok (NFloat (opF x y))
  | NInt x, NFloat y => rbind (int_to_float x) (fun x' => Ok (NFloat (opF x' y)))
  | NFloat x, NInt y => rbind (int_to_float y) (fun y' => Ok (NFloat (opF x y')))
  end.

Definition of_number (n : number) : pyval :=
  match n with
  | NInt z => PInt z
  | NFloat f => PFloat f
  end.

(** [seq * n]: the sequence repeated [n] times, empty for [n <= 0]. *)
Definition py_repeat (n : Z) (v : pyval) : result pyval :=
  match v with
  | PStr s => Ok (PStr (String.concat EmptyString (repeat s (Z.to_nat n))))
  | PList l => Ok (PList (List.concat (repeat l (Z.to_nat n))))
  | _ => Raise TypeError
  end.

(** [a * b]: a product of numbers, or a string or list repeated an integer
    number of times. *)
Definition py_mul (a b : pyval) : result pyval :=
  match as_number a, as_number b with
  | Some x, Some y => rbind (arith Z.mul PrimFloat.mul x y) (fun n => Ok (of_number n))
  | Some (NInt n), None => py_repeat n b
  | None, Some (NInt n) => py_repeat n a
  | _, _ => Raise TypeError
  end.

(** [total + x] for a number [total]: a string, list, dict or [None] on
    the right has no [__radd__] that accepts a number. *)
Definition py_add (total : number) (x : pyval) : result number :=
  match as_number x with
  | Some y => arith Z.add PrimFloat.add total y
  | None => Raise TypeError
  end.

End Py.
Import Py.

(** ** The remote completion client *)

(** What [requests.post] is called with. *)
Record http_request : Type := {
  req_url : string;
  req_headers : dict;
  req_json : dict;
  req_timeout : Z
}.

(** What the program uses of a [requests.Response]: the outcome of
    [raise_for_status()] and the outcome of [json()]. *)
Record Response : Type := {
  raise_for_status : result unit;
  json : result pyval
}.

(** The network, as seen through [requests.post]. *)
Definition network : Type := http_request -> result Response.

Declare Scope result_scope.
Delimit Scope result_scope with result.
Notation "x <- c ;; k" := (rbind c (fun x => k))
  (at level 61, c at next level, right associativity) : result_scope.

(** The call [requests.post(url, headers=headers, json=payload, timeout=30)]
    that the client makes. *)
Definition openrouter_request (api_key model : string) (messages : list pyval)
    (temperature : float) : http_request :=
  let url := "https://openrouter.ai/api/v1/chat/completions" in
  let headers :=
    [("Authorization", PStr ("Bearer " ++ api_key));
     ("Content-Type", PStr "application/json");
     ("HTTP-Referer", PStr "http://localhost:8501")] in
  let payload :=
    [("model", PStr model);
     ("messages", PList messages);
     ("temperature", PFloat temperature)] in
  {| req_url := url; req_headers := headers; req_json := payload;
     req_timeout := 30 |}.

Definition get_response_from_messages_openrouter (requests_post : network)
    (api_key model : string) (messages : list pyval) (temperature : float)
    : result pyval :=
  rtry
    (response <- requests_post (openrouter_request api_key model messages temperature) ;;
     _ <- raise_for_status response ;;
     result <- json response ;;
     has_choices <- py_in "choices" result ;;
     nonempty <- (if has_choices : bool
                  then (choices <- py_getitem result "choices" ;;
                        n <- py_len choices ;;
                        Ok (0 <? n))
                  else Ok false) ;;
     if nonempty : bool
     then (choices <- py_getitem result "choices" ;;
           choice <- py_first choices ;;
           message <- py_getitem choice "message" ;;
           py_getitem message "content")
     else Raise (ValueError "Unexpected API response format"))%result
    is_RequestException
    (fun e => match e with
              | RequestException str_e =>
                  Raise (PlainException ("OpenRouter API error: " ++ str_e))
              | _ => Raise e
              end).

(** ** The assistant object and the effects of its methods *)

Record DriveThroughAssistant : Type := {
  api_key : string;
  model : string;
  menu : dict;
  current_order : dict;
  history : list pyval
}.

(** What a call of [print] leaves on the standard output: the line of
    [print( *args )] on values, the line of an f-string made of a fixed
    prefix and [str(e)], or the arguments that were written before a later
    one could not be encoded. *)
Inductive printed : Type :=
| Print (args : list pyval)
| PrintError (prefix : string) (e : exn)
| PrintCut (written : list pyval).

(** What a method can change: the object, and the standard output. *)
Record world : Type := {
  self : DriveThroughAssistant;
  stdout : list printed
}.

(** A method body: it runs from a world to a world and either returns or
    raises.  The world reached is kept when an exception is raised, as
    Python does not undo assignments. *)
Definition M (A : Type) : Type := world -> world * result A.

Definition ret {A} (a : A) : M A := fun w => (w, Ok a).

Definition bind {A B} (m : M A) (k : A -> M B) : M B :=
  fun w => match m w with
           | (w', Ok a) => k a w'
           | (w', Raise e) => (w', Raise e)
           end.

Definition lift {A} (r : result A) : M A := fun w => (w, r).

(** [try: body except ...: handler e]; every exception class of the model
    derives from [Exception], so a final [except Exception] clause makes
    the handler total. *)
Definition try_except {A} (body : M A) (handler : exn -> M A) : M A :=
  fun w => match body w with
           | (w', Ok a) => (w', Ok a)
           | (w', Raise e) => handler e w'
           end.

Definition get_self : M DriveThroughAssistant := fun w => (w, Ok (self w)).

Definition set_current_order (d : dict) : M unit :=
  fun w =>
    let o := self w in
    ({| self := {| api_key := api_key o; model := model o; menu := menu o;
                   current_order := d; history := history o |};
        stdout := stdout w |}, Ok tt).

Definition set_history (h : list pyval) : M unit :=
  fun w =>
    let o := self w in
    ({| self := {| api_key := api_key o; model := model o; menu := menu o;
                   current_order := current_order o; history := h |};
        stdout := stdout w |}, Ok tt).

(** [self.history.append(m)] *)
Definition history_append (m : pyval) : M unit :=
  fun w => set_history (history (self w) ++ [m]) w.

(** Whether the standard output takes the text of a value.  Text below
    128 is encoded by every stream, as is the text of [None], a [bool] and
    a number; for any other text the encoding of the stream decides,
    through [stdout_encodes]. *)
Definition writable (stdout_encodes : pyval -> bool) (v : pyval) : bool :=
  match v with
  | PNone | PBool _ | PInt _ | PFloat _ => true
  | PStr s => is_ascii s || stdout_encodes v
  | PList _ | PDict _ => stdout_encodes v
  end.

(** The arguments written before the first one that cannot be. *)
Fixpoint written_before (stdout_encodes : pyval -> bool) (args : list pyval)
    : list pyval :=
  match args with
  | [] => []
  | v :: rest =>
      if writable stdout_encodes v
      then v :: written_before stdout_encodes rest
      else []
  end.

(** [print]: the arguments are written one after the other, and the first
    that the stream cannot encode raises [UnicodeEncodeError] with those
    before it already written.  The f-strings the program prints hold the
    text of exceptions of the interpreter and of [json], which is below
    128. *)
Definition print (stdout_encodes : pyval -> bool) (p : printed) : M unit :=
  fun w =>
    match p with
    | Print args =>
        if forallb (writable stdout_encodes) args
        then ({| self := self w; stdout := stdout w ++ [p] |}, Ok tt)
        else ({| self := self w;
                 stdout := stdout w
                           ++ [PrintCut (written_before
                               stdout_encodes args)] |},
              Raise UnicodeEncodeError)
    | _ => ({| self := self w; stdout := stdout w ++ [p] |}, Ok tt)
    end.

Declare Scope method_scope.
Delimit Scope method_scope with method.
Notation "x <- c ;; k" := (bind c (fun x => k))
  (at level 61, c at next level, right associativity) : method_scope.
Notation "c ;;; k" := (bind c (fun _ => k))
  (at level 61, right associativity) : method_scope.

(** The dict literal [{"role": role, "content": content}]. *)
Definition message (role : string) (content : pyval) : pyval :=
  PDict [("role", PStr role); ("content", content)].

(** [l[-n:]] *)
Definition last_n {A} (n : nat) (l : list A) : list A :=
  skipn (List.length l - n) l.

(** [v.replace(old, new)]: only a [str] has the method. *)
Definition method_replace (v : pyval) (old new : string) : result string :=
  match v with
  | PStr s => Ok (str_replace s old new)
  | _ => Raise AttributeError
  end.

(** [v.items()]: only a [dict] has the method. *)
Definition method_items (v : pyval) : result dict :=
  match v with
  | PDict d => Ok d
  | _ => Raise AttributeError
  end.

Definition dq : string := String (ascii_of_nat 34) EmptyString.
Definition newline : string := String (ascii_of_nat 10) EmptyString.

(** The sampling temperature [0.1], as the binary64 value Python reads. *)
Definition temperature : float := 0x1.999999999999ap-4%float.

Definition apology_parse : string :=
  "Sorry, I had trouble processing that. Please try again.".
Definition apology_generic : string :=
  "Sorry, I encountered an error. Please try again.".

Definition __init__ (api_key model : string) (menu : dict)
    : DriveThroughAssistant :=
  {| api_key := api_key; model := model; menu := menu;
     current_order := []; history := [] |}.

(** ** The methods of the order state engine *)

Section Engine.

(** The environment of one call: the network behind [requests.post],
    [json.loads] on a string, [json.dumps] with [indent=2], and the texts
    the standard output can encode. *)
Variable requests_post : network.
Variable json_loads : string -> result pyval.
Variable json_dumps : pyval -> string.
Variable stdout_encodes : pyval -> bool.

Definition get_system_prompt (self : DriveThroughAssistant) : string :=
  let menu_items := str_join ", " (dict_keys (menu self)) in
  str_join newline
    ["";
     "You are a smart drive-through cashier.";
     "";
     "MENU:";
     json_dumps (PDict (menu self));
     "";
     "CURRENT ORDER STATE:";
     json_dumps (PDict (current_order self));
     "";
     "INSTRUCTIONS:";
     "1. Update the 'CURRENT ORDER STATE' based on the user's new message.";
     "2. Handle additions, removals, and substitutions (e.g., " ++ dq ++ "switch X for Y" ++ dq ++ ").";
     "3. If the user tries to order something NOT on the menu, inform them clearly that the item does not exist.";
     "4. Output a JSON object with two fields:";
     "   - " ++ dq ++ "message" ++ dq ++ ": A brief conversational response (e.g., " ++ dq ++ "Added Big Mac to your order" ++ dq ++ ", " ++ dq ++ "Item does not exist: Pizza" ++ dq ++ ", " ++ dq ++ "Removed Large Fry" ++ dq ++ ", " ++ dq ++ "Updated: Changed Coke to Large Fry" ++ dq ++ ")";
     "   - " ++ dq ++ "order" ++ dq ++ ": The NEW FINAL ORDER STATE as a JSON object";
     "";
     "IMPORTANT:";
     "- The " ++ dq ++ "message" ++ dq ++ " should be concise and friendly (1-2 sentences max)";
     "- If an item is NOT on the menu, set the message to indicate that the item does not exist";
     "- Only include items that are actually on the menu in the " ++ dq ++ "order" ++ dq ++ " field";
     "";
     "Example Output format:";
     "{";
     "    " ++ dq ++ "message" ++ dq ++ ": " ++ dq ++ "Added 2 Big Macs and 1 Large Fry to your order" ++ dq ++ ",";
     "    " ++ dq ++ "order" ++ dq ++ ": {";
     "        " ++ dq ++ "Big Mac" ++ dq ++ ": 2,";
     "        " ++ dq ++ "Large Fry" ++ dq ++ ": 1";
     "    }";
     "}";
     "";
     "Or if item doesn't exist:";
     "{";
     "    " ++ dq ++ "message" ++ dq ++ ": " ++ dq ++ "Item does not exist: Pizza. Available items are: " ++ menu_items ++ dq ++ ",";
     "    " ++ dq ++ "order" ++ dq ++ ": {";
     "        " ++ dq ++ "Big Mac" ++ dq ++ ": 1";
     "    }";
     "}";
     ""].

(** The message list sent to the model: the system prompt followed by the
    last three entries of the history. *)
Definition request_messages (self : DriveThroughAssistant) : list pyval :=
  [message "system" (PStr (get_system_prompt self))] ++ last_n 3 (history self).

(** Step 4 up to the choice of the new order: the display message and the
    new order state read off the parsed response.  ["message" in d] and
    [d["message"]] are one lookup here, as are ["order" in d] and
    [d["order"]]. *)
Definition extract (ai_message : pyval) (response_data : pyval) : pyval * pyval :=
  match response_data with
  | PDict d =>
      let ai_message := match dict_get "message" d with
                        | Some m => m
                        | None => ai_message
                        end in
      let new_order_state := match dict_get "order" d with
                             | Some o => o
                             | None => response_data
                             end in
      (ai_message, new_order_state)
  | _ => (ai_message, response_data)
  end.

(** The comprehension [{k: v for k, v in items if k in menu}]: the keys of
    [items] are distinct, so each kept pair is inserted once, in order. *)
Definition validate (menu : dict) (items : dict) : dict :=
  filter (fun kv => dict_mem (fst kv) menu) items.

(** [response_text.replace("```json", "").replace("```", "").strip()] *)
Definition clean_text (response_text : pyval) : result string :=
  (s <- method_replace response_text "```json" "" ;;
   Ok (str_strip (str_replace s "```" "")))%result.

Definition process_user_message (user_input : string) : M (dict * pyval) :=
  (history_append (message "user" (PStr user_input)) ;;;
   self <- get_self ;;
   let messages := request_messages self in
   response_text <- lift (get_response_from_messages_openrouter requests_post
                            (api_key self) (model self) messages temperature) ;;
   let ai_message := PStr "Order updated." in
   try_except
     (clean <- lift (clean_text response_text) ;;
      response_data <- lift (json_loads clean) ;;
      let '(ai_message, new_order_state) := extract ai_message response_data in
      items <- lift (method_items new_order_state) ;;
      self <- get_self ;;
      let validated_order := validate (menu self) items in
      set_current_order validated_order ;;;
      history_append (message "assistant" ai_message) ;;;
      self <- get_self ;;
      ret (current_order self, ai_message))
     (fun e =>
        if is_JSONDecodeError e
        then
          let error_msg := "Error: LLM did not output valid JSON." in
          print stdout_encodes (Print [PStr error_msg]) ;;;
          print stdout_encodes (Print [PStr "Raw output:"; response_text]) ;;;
          history_append (message "assistant" (PStr apology_parse)) ;;;
          self <- get_self ;;
          ret (current_order self, PStr apology_parse)
        else
          print stdout_encodes (PrintError "Error processing message: " e) ;;;
          history_append (message "assistant" (PStr apology_generic)) ;;;
          self <- get_self ;;
          ret (current_order self, PStr apology_generic)))%method.

(** The loop of [calculate_total], from the running [total] over the
    remaining items; [menu.get(item, 0)] is the price. *)
Fixpoint calculate_total_loop (menu : dict) (items : dict) (total : number)
    : result number :=
  match items with
  | [] => Ok total
  | (item, qty) :: rest =>
      let price := match dict_get item menu with
                   | Some p => p
                   | None => PInt 0
                   end in
      (product <- py_mul price qty ;;
       total <- py_add total product ;;
       calculate_total_loop menu rest total)%result
  end.

Definition calculate_total : M pyval :=
  (self <- get_self ;;
   total <- lift (calculate_total_loop (menu self) (current_order self) (NInt 0)) ;;
   ret (of_number total))%method.

Definition clear_order : M unit :=
  (set_current_order [] ;;;
   set_history [])%method.

End Engine.

(** ** Vocabulary for the statements *)

(** The world once [process_user_message] has appended the user entry. *)
Definition after_user_entry (user_input : string) (w : world) : world :=
  fst (history_append (message "user" (PStr user_input)) w).

(** The outcome of the remote call that [process_user_message] makes. *)
Definition remote_reply (requests_post : network) (json_dumps : pyval -> string)
    (user_input : string) (w : world) : result pyval :=
  let o := self (after_user_entry user_input w) in
  get_response_from_messages_openrouter requests_post (api_key o) (model o)
    (request_messages json_dumps o) temperature.

(** The pure part of step 4: from the response text to the display message
    and the items of the new order state. *)
Definition interpret (json_loads : string -> result pyval) (response_text : pyval)
    : result (pyval * dict) :=
  (clean <- clean_text response_text ;;
   response_data <- json_loads clean ;;
   items <- method_items (snd (extract (PStr "Order updated.") response_data)) ;;
   Ok (fst (extract (PStr "Order updated.") response_data), items))%result.

(** The object with its order and history replaced. *)
Definition with_state (o : DriveThroughAssistant) (order : dict)
    (h : list pyval) : DriveThroughAssistant :=
  {| api_key := api_key o; model := model o; menu := menu o;
     current_order := order; history := h |}.

(** What the two handlers print and say for an exception [e] raised while
    the response [response_text] was interpreted. *)
Definition handler_output (response_text : pyval) (e : exn) : list printed :=
  if is_JSONDecodeError e
  then [Print [PStr "Error: LLM did not output valid JSON."];
        Print [PStr "Raw output:"; response_text]]
  else [PrintError "Error processing message: " e].

Definition handler_apology (e : exn) : string :=
  if is_JSONDecodeError e then apology_parse else apology_generic.

(** Whether the handler of [JSONDecodeError] is entered for the response
    [response_text] and its printing of the raw text raises: the cleaned
    text is rejected by [json.loads] and the standard output cannot encode
    the response. *)
Definition raw_print_fails (json_loads : string -> result pyval)
    (stdout_encodes : pyval -> bool) (response_text : pyval) : bool :=
  match clean_text response_text with
  | Ok clean =>
      match json_loads clean with
      | Raise e => is_JSONDecodeError e && negb (writable
          stdout_encodes response_text)
      | Ok _ => false
      end
  | Raise _ => false
  end.

(** The worlds an assistant can be in: constructed, then driven by any
    sequence of method calls, each turn in an environment of its own. *)
Inductive reachable : world -> Prop :=
| reach_init : forall api_key model menu out,
    reachable {| self := __init__ api_key model menu; stdout := out |}
| reach_turn : forall w requests_post json_loads json_dumps stdout_encodes
                     user_input,
    reachable w ->
    reachable (fst (process_user_message requests_post json_loads json_dumps
                      stdout_encodes user_input w))
| reach_total : forall w,
    reachable w -> reachable (fst (calculate_total w))
| reach_clear : forall w,
    reachable w -> reachable (fst (clear_order w)).

(** Every key of the current order is a key of the menu. *)
Definition order_within_menu (w : world) : Prop :=
  forall k, In k (dict_keys (current_order (self w))) ->
            dict_mem k (menu (self w)) = true.

(** The integer a value denotes, when it is an [int] (or a [bool]). *)
Definition int_of (v : pyval) : option Z :=
  match v with
  | PInt z => Some z
  | PBool b => Some (if b then 1 else 0)
  | _ => None
  end.

Definition all_int (d : dict) : bool :=
  forallb (fun kv => match int_of (snd kv) with Some _ => true | None => false end) d.

Definition int_or_zero (v : option pyval) : Z :=
  match v with
  | Some x => match int_of x with Some z => z | None => 0 end
  | None => 0
  end.

(** Quantity times menu price of one order entry, over the integers. *)
Definition line_total (menu : dict) (kv : string * pyval) : Z :=
  int_or_zero (dict_get (fst kv) menu) * int_or_zero (Some (snd kv)).

Definition sum_Z (l : list Z) : Z := fold_right Z.add 0 l.

(** One step of accumulation in Python arithmetic: the running total plus
    the menu price (0 when absent) times the quantity of one entry. *)
Definition accumulate (menu : dict) (acc : result number)
    (kv : string * pyval) : result number :=
  (total <- acc ;;
   product <- py_mul (match dict_get (fst kv) menu with
                      | Some p => p
                      | None => PInt 0
                      end) (snd kv) ;;
   py_add total product)%result.

(** ** Vocabulary for sequences of turns and for texts *)

(** The environment and the input of one turn. *)
Record turn : Type := {
  turn_post : network;
  turn_loads : string -> result pyval;
  turn_dumps : pyval -> string;
  turn_encodes : pyval -> bool;
  turn_input : string
}.

(** The world after the turns of [ts], in order, whatever each of them
    returned or raised. *)
Fixpoint run_turns (ts : list turn) (w : world) : world :=
  match ts with
  | [] => w
  | t :: ts' =>
      run_turns ts'
        (fst (process_user_message (turn_post t) (turn_loads t) (turn_dumps t)
                (turn_encodes t) (turn_input t) w))
  end.

(** Whether every turn of [ts] returns to its caller. *)
Fixpoint all_returned (ts : list turn) (w : world) : bool :=
  match ts with
  | [] => true
  | t :: ts' =>
      match process_user_message (turn_post t) (turn_loads t) (turn_dumps t)
              (turn_encodes t) (turn_input t) w with
      | (w', Ok _) => all_returned ts' w'
      | (_, Raise _) => false
      end
  end.

(** An entry of the history as the methods write it: a dict of a role,
    [user] or [assistant], and a content. *)
Definition is_turn_entry (v : pyval) : bool :=
  match v with
  | PDict [(r, PStr role); (c, _)] =>
      String.eqb r "role" && String.eqb c "content"
      && (String.eqb role "user" || String.eqb role "assistant")
  | _ => false
  end.

(** Whether a text is free of the backquote character. *)
Fixpoint no_backquote (s : string) : bool :=
  match s with
  | EmptyString => true
  | String c s' => negb (Ascii.eqb c "`"%char) && no_backquote s'
  end.

(** ** Test doubles for the environment *)

Module Examples.

(** A network whose endpoint answers with the JSON body [body]. *)
Definition net_body (body : pyval) : network :=
  fun _ => Ok {| raise_for_status := Ok tt; json := Ok body |}.

(** A well-formed completion whose first choice has content [content]. *)
Definition completion (content : pyval) : pyval :=
  PDict [("id", PStr "gen-1");
         ("choices",
          PList [PDict [("index", PInt 0);
                        ("message", message "assistant" content)]])].

Definition net_reply (content : pyval) : network := net_body (completion content).

(** A network on which the connection fails. *)
Definition net_down : network :=
  fun _ => Raise (RequestException "Connection refused").

(** A network whose endpoint answers with an error status. *)
Definition net_status (str_e : string) : network :=
  fun _ => Ok {| raise_for_status := Raise (RequestException str_e);
                 json := Ok (PDict [("error", PStr "unavailable")]) |}.

(** A [json.loads] that knows the parse of finitely many texts and rejects
    every other text. *)
Definition loads_of (table : list (string * pyval)) : string -> result pyval :=
  fun s => match dict_get s table with
           | Some v => Ok v
           | None => Raise JSONDecodeError
           end.

(** A [json.dumps] for dicts of the examples' menu and orders; the prompt
    it is printed into is read by the network only. *)
Definition dumps_keys (v : pyval) : string :=
  match v with
  | PDict d => "{" ++ str_join ", " (dict_keys d) ++ "}"
  | _ => "null"
  end.

(** A standard output in UTF-8: it encodes every text but one that holds a
    surrogate, whose three bytes start with 237 followed by 160 to 191. *)
Fixpoint has_surrogate (s : string) : bool :=
  match s with
  | String a ((String b _) as s') =>
      ((nat_of_ascii a =? 237)%nat && (160 <=? nat_of_ascii b)%nat
       && (nat_of_ascii b <=? 191)%nat)
      || has_surrogate s'
  | _ => false
  end.

Definition utf8_stdout (v : pyval) : bool :=
  match v with
  | PStr s => negb (has_surrogate s)
  | _ => true
  end.

Definition default_menu : dict :=
  [("Big Mac", PInt 5); ("Large Fry", PInt 3); ("Coke", PInt 2)].

Definition fresh : world :=
  {| self := __init__ "sk-key" "meta-llama/llama-3.2-3b-instruct:free" default_menu;
     stdout := [] |}.

Definition quoted (s : string) : string := dq ++ s ++ dq.

(** The text [{"message":"ok","order":{"Big Mac":2,"Pizza":1}}] and its
    parse. *)
Definition text_mixed : string :=
  "{" ++ quoted "message" ++ ":" ++ quoted "ok" ++ "," ++ quoted "order" ++ ":{"
      ++ quoted "Big Mac" ++ ":2," ++ quoted "Pizza" ++ ":1}}".
Definition parsed_mixed : pyval :=
  PDict [("message", PStr "ok");
         ("order", PDict [("Big Mac", PInt 2); ("Pizza", PInt 1)])].

(** The text [{"message":"hi","order":5}] and its parse. *)
Definition text_scalar_order : string :=
  "{" ++ quoted "message" ++ ":" ++ quoted "hi" ++ "," ++ quoted "order" ++ ":5}".
Definition parsed_scalar_order : pyval :=
  PDict [("message", PStr "hi"); ("order", PInt 5)].

(** The text [["Big Mac"]] and its parse. *)
Definition text_array : string := "[" ++ quoted "Big Mac" ++ "]".
Definition parsed_array : pyval := PList [PStr "Big Mac"].

(** The text [{"message":"ok","order":{"Big Mac":-3,"Coke":0}}] and its
    parse. *)
Definition text_negative : string :=
  "{" ++ quoted "message" ++ ":" ++ quoted "ok" ++ "," ++ quoted "order" ++ ":{"
      ++ quoted "Big Mac" ++ ":-3," ++ quoted "Coke" ++ ":0}}".
Definition parsed_negative : pyval :=
  PDict [("message", PStr "ok");
         ("order", PDict [("Big Mac", PInt (-3)); ("Coke", PInt 0)])].

(** The text [{"Big Mac":1}] and its parse. *)
Definition text_bare : string := "{" ++ quoted "Big Mac" ++ ":1}".
Definition parsed_bare : pyval := PDict [("Big Mac", PInt 1)].

(** A reply that starts with the lone surrogate U+D83D, the first half of
    an emoji, as a content cut in the middle of a character has it. *)
Definition text_surrogate : string :=
  String (ascii_of_nat 237) (String (ascii_of_nat 160) (String (ascii_of_nat 189)
    " Sure, I added that!")).

(** A reply wrapped in no-break spaces (U+00A0, bytes 194 and 160). *)
Definition nbsp : string :=
  String (ascii_of_nat 194) (String (ascii_of_nat 160) EmptyString).

Definition loads : string -> result pyval :=
  loads_of [(text_mixed, parsed_mixed);
            (text_scalar_order, parsed_scalar_order);
            (text_array, parsed_array);
            (text_negative, parsed_negative);
            (text_bare, parsed_bare)].

(** The assistant after a first turn that ordered two Big Macs. *)
Definition two_big_macs : world :=
  fst (process_user_message (net_reply (PStr text_mixed)) loads dumps_keys utf8_stdout
         "two big macs and a pizza" fresh).

(** A menu with binary64 prices 0.1, 0.2 and 0.3, and one order of one
    of each, iterated in two orders. *)
Definition float_menu : dict :=
  [("Dip", PFloat 0x1.999999999999ap-4);
   ("Mint", PFloat 0x1.999999999999ap-3);
   ("Cookie", PFloat 0x1.3333333333333p-2)].

Definition with_order (menu order : dict) : world :=
  {| self := {| api_key := "sk-key"; model := "m"; menu := menu;
                current_order := order; history := [] |};
     stdout := [] |}.

Definition order_forward : dict :=
  [("Dip", PInt 1); ("Mint", PInt 1); ("Cookie", PInt 1)].
Definition order_backward : dict :=
  [("Cookie", PInt 1); ("Mint", PInt 1); ("Dip", PInt 1)].

End Examples.
Import Examples.

(** ** The shape of one turn *)

Lemma process_user_message_cases requests_post json_loads json_dumps
    stdout_encodes user_input w :
  process_user_message requests_post json_loads json_dumps stdout_encodes
    user_input w =
  let o := self w in
  let user := message "user" (PStr user_input) in
  match remote_reply requests_post json_dumps user_input w with
  | Raise e =>
      ({| self := with_state o (current_order o) (history o ++ [user]);
          stdout := stdout w |}, Raise e)
  | Ok response_text =>
      match interpret json_loads response_text with
      | Ok (ai_message, items) =>
          let validated := filter (fun kv => dict_mem (fst kv) (menu o)) items in
          ({| self := with_state o validated
                        (history o ++ [user; message "assistant" ai_message]);
              stdout := stdout w |},
           Ok (validated, ai_message))
      | Raise e =>
          if is_JSONDecodeError e && negb (writable
              stdout_encodes response_text)
          then
            ({| self := with_state o (current_order o) (history o ++ [user]);
                stdout := stdout w
                          ++ [Print [PStr "Error: LLM did not output valid JSON."];
                              PrintCut [PStr "Raw output:"]] |},
             Raise UnicodeEncodeError)
          else
            let sorry := PStr (handler_apology e) in
            ({| self := with_state o (current_order o)
                          (history o ++ [user; message "assistant" sorry]);
                stdout := stdout w ++ handler_output response_text e |},
             Ok (current_order o, sorry))
      end
  end.
Proof.
  unfold process_user_message, remote_reply, after_user_entry.
  unfold bind at 1. cbn [history_append set_history fst self].
  unfold bind at 1. cbn [get_self self].
  unfold bind at 1, lift at 1.
  destruct (get_response_from_messages_openrouter _ _ _ _ _) as [response_text|e];
    [|reflexivity].
  assert (Hhandler : forall e w1,
    (if is_JSONDecodeError e
     then
       (print
           stdout_encodes (Print [PStr "Error: LLM did not output valid JSON."]) ;;;
        print stdout_encodes (Print [PStr "Raw output:"; response_text]) ;;;
        history_append (message "assistant" (PStr apology_parse)) ;;;
        self <- get_self ;;
        ret (current_order self, PStr apology_parse))%method
     else
       (print stdout_encodes (PrintError "Error processing message: " e) ;;;
        history_append (message "assistant" (PStr apology_generic)) ;;;
        self <- get_self ;;
        ret (current_order self, PStr apology_generic))%method) w1
    = if is_JSONDecodeError e && negb (writable stdout_encodes response_text)
      then
        ({| self := self w1;
            stdout := stdout w1
                      ++ [Print [PStr "Error: LLM did not output valid JSON."];
                          PrintCut [PStr "Raw output:"]] |},
         Raise UnicodeEncodeError)
      else
        ({| self := with_state (self w1) (current_order (self w1))
                      (history (self w1)
                       ++ [message "assistant" (PStr (handler_apology e))]);
            stdout := stdout w1 ++ handler_output response_text e |},
         Ok (current_order (self w1), PStr (handler_apology e)))).
  { intros e w1. unfold handler_apology, handler_output.
    destruct (is_JSONDecodeError e); cbn [andb].
    - unfold bind at 1. cbn [print forallb writable].
      change (is_ascii "Error: LLM did not output valid JSON.") with true.
      cbn [orb andb]. unfold bind at 1.
      cbn [print forallb writable written_before].
      change (is_ascii "Raw output:") with true. cbn [orb andb].
      rewrite andb_true_r.
      destruct (writable stdout_encodes response_text); cbn [negb].
      + cbn. rewrite <- ?app_assoc. reflexivity.
      + cbn. rewrite <- ?app_assoc. reflexivity.
    - cbn. reflexivity. }
  unfold try_except, interpret.
  unfold bind at 1, lift at 1.
  destruct (clean_text response_text) as [clean|e]; cbn [rbind].
  - unfold bind at 1, lift at 1.
    destruct (json_loads clean) as [response_data|e]; cbn [rbind].
    + destruct (extract _ response_data) as [ai_message new_order_state].
      cbn [fst snd]. unfold bind at 1, lift at 1.
      destruct (method_items new_order_state) as [items|e]; cbn [rbind].
      * cbn. rewrite <- app_assoc. reflexivity.
      * rewrite Hhandler. destruct (_ && _); cbn; rewrite <- ?app_assoc;
          reflexivity.
    + rewrite Hhandler. destruct (_ && _); cbn; rewrite <- ?app_assoc;
        reflexivity.
  - rewrite Hhandler. destruct (_ && _); cbn; rewrite <- ?app_assoc;
      reflexivity.
Qed.

(** Replace a turn by its case analysis. *)
Ltac turn_cases := rewrite process_user_message_cases; cbv zeta.

Lemma turn_menu requests_post json_loads json_dumps
    stdout_encodes user_input w :
  menu (self (fst (process_user_message requests_post json_loads json_dumps stdout_encodes
                     user_input w))) = menu (self w).
Proof.
  turn_cases.
  destruct (remote_reply _ _ _ _) as [response_text|e]; [|reflexivity].
  destruct (interpret _ _) as [[ai_message items]|e]; [reflexivity|].
  destruct (_ && _); reflexivity.
Qed.

Lemma filter_keys_within (m items : dict) k :
  In k (dict_keys (filter (fun kv => dict_mem (fst kv) m) items)) ->
  dict_mem k m = true.
Proof.
  unfold dict_keys. rewrite in_map_iff.
  intros [[k' v] [Hk Hin]]. apply filter_In in Hin.
  cbn in *. subst. tauto.
Qed.

Lemma turn_within_menu requests_post json_loads json_dumps
    stdout_encodes user_input w :
  order_within_menu w ->
  order_within_menu (fst (process_user_message requests_post json_loads
                            json_dumps stdout_encodes user_input w)).
Proof.
  intros Hw. unfold order_within_menu. rewrite turn_menu.
  turn_cases.
  destruct (remote_reply _ _ _ _) as [response_text|e]; [|exact Hw].
  destruct (interpret _ _) as [[ai_message items]|e];
    [|destruct (_ && _); exact Hw].
  cbn [fst self current_order with_state]. apply filter_keys_within.
Qed.

Lemma interpret_items json_loads response_text clean response_data items :
  clean_text response_text = Ok clean ->
  json_loads clean = Ok response_data ->
  snd (extract (PStr "Order updated.") response_data) = PDict items ->
  interpret json_loads response_text
  = Ok (fst (extract (PStr "Order updated.") response_data), items).
Proof.
  intros Hc Hl Hx. unfold interpret. rewrite Hc. cbn [rbind].
  rewrite Hl. cbn [rbind]. rewrite Hx. reflexivity.
Qed.

Lemma raw_print_fails_interpret json_loads stdout_encodes response_text :
  raw_print_fails json_loads stdout_encodes response_text
  = match interpret json_loads response_text with
    | Ok _ => false
    | Raise e =>
        is_JSONDecodeError e && negb (writable stdout_encodes response_text)
    end.
Proof.
  unfold raw_print_fails, interpret.
  destruct (clean_text response_text) as [clean|e] eqn:Ec; cbn [rbind].
  - destruct (json_loads clean) as [response_data|e]; cbn [rbind];
      [|reflexivity].
    destruct (method_items _) as [items|e] eqn:Ei; cbn [rbind]; [reflexivity|].
    unfold method_items in Ei.
    destruct (snd _); try discriminate Ei; injection Ei as <-; reflexivity.
  - unfold clean_text, method_replace in Ec.
    destruct response_text; try discriminate Ec; injection Ec as <-;
      reflexivity.
Qed.

Lemma reachable_within_menu w : reachable w -> order_within_menu w.
Proof.
  induction 1 as [k m mn out | w post loads dumps enc input _ IH | w _ IH
                 | w _ IH].
  - intros k' [].
  - apply turn_within_menu, IH.
  - unfold calculate_total, bind, get_self, lift.
    destruct (calculate_total_loop _ _ _); exact IH.
  - intros k' [].
Qed.

(** ** Menu membership of the order *)

(** C1. In every world reachable by constructing an assistant and calling
    its methods in any sequence, every key of the current order is a key of
    the menu; and a turn whose response parses to an order mapping installs
    exactly that mapping restricted to the keys of the menu. *)
Theorem order_keys_in_menu (w : world) :
  reachable w ->
  order_within_menu w /\
  (forall requests_post json_loads json_dumps stdout_encodes user_input
          response_text clean response_data items,
      remote_reply requests_post json_dumps user_input w = Ok response_text ->
      clean_text response_text = Ok clean ->
      json_loads clean = Ok response_data ->
      snd (extract (PStr "Order updated.") response_data) = PDict items ->
      current_order (self (fst (process_user_message requests_post json_loads
                                  json_dumps stdout_encodes user_input w)))
      = filter (fun kv => dict_mem (fst kv) (menu (self w))) items).
Proof.
  intros Hw. split; [apply reachable_within_menu, Hw|].
  intros post loads dumps enc input text clean data items Hr Hc Hl Hx.
  turn_cases. rewrite Hr.
  rewrite (interpret_items _ _ _ _ _ Hc Hl Hx). reflexivity.
Qed.

Lemma order_keys_in_menu_witness :
  order_within_menu two_big_macs /\
  current_order (self (fst (process_user_message (net_reply (PStr text_mixed))
                              loads dumps_keys
                                  utf8_stdout "and a pizza" two_big_macs)))
  = [("Big Mac", PInt 2)].
Proof.
  assert (Hreach : reachable two_big_macs) by apply reach_turn, reach_init.
  destruct (order_keys_in_menu two_big_macs Hreach) as [Hinv Hturn].
  split; [exact Hinv|].
  apply (Hturn (net_reply (PStr text_mixed)) loads dumps_keys
      utf8_stdout "and a pizza"
           (PStr text_mixed) text_mixed parsed_mixed
           [("Big Mac", PInt 2); ("Pizza", PInt 1)]); reflexivity.
Defined.

(** ** Quantities *)

Lemma dict_get_filter (m items : dict) k :
  dict_mem k m = true ->
  dict_get k (filter (fun kv => dict_mem (fst kv) m) items) = dict_get k items.
Proof.
  intros Hk. induction items as [|[k' v] items IH]; [reflexivity|].
  cbn [filter fst dict_get].
  destruct (String.eqb k k') eqn:E.
  - apply String.eqb_eq in E. subst k'. rewrite Hk. cbn [dict_get].
    rewrite String.eqb_refl. reflexivity.
  - destruct (dict_mem k' m); [cbn [dict_get]; rewrite E|]; exact IH.
Qed.

(** C10. The filtering step keeps the quantities as the model returned them:
    for a key of the menu, the installed order holds the very value the
    response's order mapping holds, whatever that value is, zero and
    negative numbers included. *)
Theorem quantities_verbatim requests_post json_loads json_dumps
    stdout_encodes user_input w
    response_text clean response_data items k :
  remote_reply requests_post json_dumps user_input w = Ok response_text ->
  clean_text response_text = Ok clean ->
  json_loads clean = Ok response_data ->
  snd (extract (PStr "Order updated.") response_data) = PDict items ->
  dict_mem k (menu (self w)) = true ->
  let order' := current_order (self (fst (process_user_message requests_post
                                            json_loads json_dumps
                                                stdout_encodes user_input w))) in
  dict_get k order' = dict_get k items /\
  (forall qty, In (k, qty) items -> In (k, qty) order').
Proof.
  intros Hr Hc Hl Hx Hk order'. subst order'.
  turn_cases. rewrite Hr.
  rewrite (interpret_items _ _ _ _ _ Hc Hl Hx).
  cbn [fst self current_order with_state]. split.
  - apply dict_get_filter, Hk.
  - intros qty Hin. apply filter_In. split; [exact Hin | exact Hk].
Qed.

Lemma quantities_verbatim_witness :
  let order' := current_order (self (fst (process_user_message
                   (net_reply (PStr text_negative)) loads dumps_keys utf8_stdout
                   "minus three big macs" fresh))) in
  dict_get "Big Mac" order' = Some (PInt (-3)) /\
  (forall qty, In ("Big Mac", qty) [("Big Mac", PInt (-3)); ("Coke", PInt 0)] ->
               In ("Big Mac", qty) order').
Proof.
  apply (quantities_verbatim (net_reply (PStr text_negative)) loads dumps_keys utf8_stdout
           "minus three big macs" fresh (PStr text_negative) text_negative
           parsed_negative [("Big Mac", PInt (-3)); ("Coke", PInt 0)] "Big Mac");
    reflexivity.
Defined.

(** ** Failures while the response is interpreted *)

(** C4. The code breaks the claim at a reply that the standard output
    cannot encode.  The reply below is not valid JSON, so the handler of
    [JSONDecodeError] is entered; on a UTF-8 standard output its printing of
    the raw text raises inside the handler, and the turn raises
    [UnicodeEncodeError] to its caller instead of returning the apology:
    the order is kept, but no assistant entry is appended. *)
Theorem parse_failure_print_raises :
  loads (str_strip (str_replace (str_replace text_surrogate "```json" "")
                      "```" ""))
  = Raise JSONDecodeError /\
  process_user_message (net_reply (PStr text_surrogate)) loads dumps_keys
    utf8_stdout "one coke" two_big_macs
  = ({| self := with_state (self two_big_macs) [("Big Mac", PInt 2)]
                  (history (self two_big_macs)
                   ++ [message "user" (PStr "one coke")]);
        stdout := [Print [PStr "Error: LLM did not output valid JSON."];
                   PrintCut [PStr "Raw output:"]] |},
     Raise UnicodeEncodeError).
Proof. split; reflexivity. Qed.

(** X21. When the cleaned response text is not valid JSON and the standard
    output can encode the raw text, the turn leaves the order as it was,
    returns the fixed apology, appends the user entry and that same apology
    to the history, and prints the raw text to the standard output only. *)
Theorem parse_failure_atomic requests_post json_loads json_dumps
    stdout_encodes user_input w raw :
  remote_reply requests_post json_dumps user_input w = Ok (PStr raw) ->
  json_loads (str_strip (str_replace (str_replace raw "```json" "") "```" ""))
  = Raise JSONDecodeError ->
  writable stdout_encodes (PStr raw) = true ->
  let sorry := PStr "Sorry, I had trouble processing that. Please try again." in
  let w' := fst (process_user_message requests_post json_loads json_dumps
                   stdout_encodes user_input w) in
  snd (process_user_message requests_post json_loads json_dumps stdout_encodes
         user_input w)
  = Ok (current_order (self w), sorry) /\
  current_order (self w') = current_order (self w) /\
  history (self w')
  = (history (self w) ++ [message "user" (PStr user_input);
                           message "assistant" sorry])%list /\
  stdout w'
  = (stdout w ++ [Print [PStr "Error: LLM did not output valid JSON."];
                  Print [PStr "Raw output:"; PStr raw]])%list.
Proof.
  intros Hr Hl Hw sorry w'. subst sorry w'.
  turn_cases. rewrite Hr.
  unfold interpret, clean_text. cbn [method_replace rbind]. rewrite Hl.
  rewrite Hw. cbn. auto.
Qed.

Lemma parse_failure_atomic_witness :
  let sorry := PStr "Sorry, I had trouble processing that. Please try again." in
  let w' := fst (process_user_message (net_reply (PStr "Sure, I added that!"))
                   loads dumps_keys utf8_stdout "one coke" two_big_macs) in
  snd (process_user_message (net_reply (PStr "Sure, I added that!")) loads
         dumps_keys utf8_stdout "one coke" two_big_macs)
  = Ok (current_order (self two_big_macs), sorry) /\
  current_order (self w') = current_order (self two_big_macs) /\
  history (self w')
  = (history (self two_big_macs) ++ [message "user" (PStr "one coke");
                                      message "assistant" sorry])%list /\
  stdout w'
  = (stdout two_big_macs
     ++ [Print [PStr "Error: LLM did not output valid JSON."];
         Print [PStr "Raw output:"; PStr "Sure, I added that!"]])%list.
Proof.
  apply (parse_failure_atomic (net_reply (PStr "Sure, I added that!")) loads
           dumps_keys
               utf8_stdout "one coke" two_big_macs "Sure, I added that!");
    reflexivity.
Defined.

(** C5, as the code has it. For a response that parses to a mapping, the new
    order is the value of its [order] key if present and the mapping itself
    otherwise.  When that new order is a mapping, the display message is
    the value of the [message] key if present and ["Order updated."]
    otherwise, the order is replaced by the new order restricted to the
    keys of the menu, and the user entry and the display message are
    appended to the history.  When it is not a mapping, the turn ends in
    the general handler: the order is kept, and the second apology is
    returned and appended to the history. *)
Theorem mapping_response_dispatch requests_post json_loads json_dumps
    stdout_encodes user_input w response_text clean d :
  remote_reply requests_post json_dumps user_input w = Ok response_text ->
  clean_text response_text = Ok clean ->
  json_loads clean = Ok (PDict d) ->
  let new_order_state := match dict_get "order" d with
                         | Some o => o
                         | None => PDict d
                         end in
  let ai_message := match dict_get "message" d with
                    | Some m => m
                    | None => PStr "Order updated."
                    end in
  let sorry := PStr "Sorry, I encountered an error. Please try again." in
  let user := message "user" (PStr user_input) in
  process_user_message requests_post json_loads json_dumps stdout_encodes
    user_input w
  = match new_order_state with
    | PDict items =>
        let validated :=
          filter (fun kv => dict_mem (fst kv) (menu (self w))) items in
        ({| self := {| api_key := api_key (self w); model := model (self w);
                       menu := menu (self w);
                       current_order := validated;
                       history := history (self w)
                                  ++ [user; message "assistant" ai_message] |};
            stdout := stdout w |},
         Ok (validated, ai_message))
    | _ =>
        ({| self := {| api_key := api_key (self w); model := model (self w);
                       menu := menu (self w);
                       current_order := current_order (self w);
                       history := history (self w)
                                  ++ [user; message "assistant" sorry] |};
            stdout := stdout w ++ [PrintError "Error processing message: "
                                     AttributeError] |},
         Ok (current_order (self w), sorry))
    end.
Proof.
  intros Hr Hc Hl. cbv zeta. turn_cases. rewrite Hr.
  unfold interpret. rewrite Hc. cbn [rbind]. rewrite Hl.
  cbn [rbind extract fst snd].
  destruct (match dict_get "order" d with Some o => o | None => PDict d end);
    reflexivity.
Qed.

Lemma mapping_response_dispatch_witness :
  process_user_message (net_reply (PStr text_bare)) loads dumps_keys
    utf8_stdout "a big mac" fresh
  = ({| self := {| api_key := "sk-key";
                   model := "meta-llama/llama-3.2-3b-instruct:free";
                   menu := default_menu;
                   current_order := [("Big Mac", PInt 1)];
                   history := [message "user" (PStr "a big mac");
                               message "assistant" (PStr "Order updated.")] |};
        stdout := [] |},
     Ok ([("Big Mac", PInt 1)], PStr "Order updated.")) /\
  process_user_message (net_reply (PStr text_scalar_order)) loads dumps_keys
    utf8_stdout "five" fresh
  = ({| self := {| api_key := "sk-key";
                   model := "meta-llama/llama-3.2-3b-instruct:free";
                   menu := default_menu;
                   current_order := [];
                   history := [message "user" (PStr "five");
                               message "assistant"
                                 (PStr "Sorry, I encountered an error. Please try again.")] |};
        stdout := [PrintError "Error processing message: " AttributeError] |},
     Ok ([], PStr "Sorry, I encountered an error. Please try again.")).
Proof.
  split.
  - apply (mapping_response_dispatch (net_reply (PStr text_bare)) loads
             dumps_keys utf8_stdout "a big mac" fresh (PStr text_bare) text_bare
             [("Big Mac", PInt 1)]); reflexivity.
  - apply (mapping_response_dispatch (net_reply (PStr text_scalar_order)) loads
             dumps_keys utf8_stdout "five" fresh (PStr text_scalar_order)
             text_scalar_order [("message", PStr "hi"); ("order", PInt 5)]);
      reflexivity.
Defined.

(** C5, as stated, fails: the response [{"message":"hi","order":5}] parses
    to a mapping with both keys, yet the turn returns the second apology
    instead of ["hi"] and keeps the order. *)
Lemma mapping_response_scalar_order :
  clean_text (PStr text_scalar_order) = Ok text_scalar_order /\
  loads text_scalar_order
  = Ok (PDict [("message", PStr "hi"); ("order", PInt 5)]) /\
  snd (process_user_message (net_reply (PStr text_scalar_order)) loads
         dumps_keys utf8_stdout "five" two_big_macs)
  = Ok ([("Big Mac", PInt 2)],
        PStr "Sorry, I encountered an error. Please try again.").
Proof. repeat split. Qed.

(** C6, as the code has it. For a response that parses to a value that is
    not a mapping, the value is taken as the new order state but has no
    items to filter: the turn ends in the general handler, which keeps the
    order, returns the second apology and appends it to the history after
    the user entry. *)
Theorem non_mapping_response requests_post json_loads json_dumps
    stdout_encodes user_input w
    response_text clean response_data :
  remote_reply requests_post json_dumps user_input w = Ok response_text ->
  clean_text response_text = Ok clean ->
  json_loads clean = Ok response_data ->
  (forall d, response_data <> PDict d) ->
  let sorry := PStr "Sorry, I encountered an error. Please try again." in
  process_user_message requests_post json_loads json_dumps
      stdout_encodes user_input w
  = ({| self := {| api_key := api_key (self w); model := model (self w);
                   menu := menu (self w);
                   current_order := current_order (self w);
                   history := history (self w)
                              ++ [message "user" (PStr user_input);
                                  message "assistant" sorry] |};
        stdout := stdout w ++ [PrintError "Error processing message: "
                                 AttributeError] |},
     Ok (current_order (self w), sorry)).
Proof.
  intros Hr Hc Hl Hd sorry. subst sorry.
  turn_cases. rewrite Hr.
  unfold interpret. rewrite Hc. cbn [rbind]. rewrite Hl. cbn [rbind].
  destruct response_data; try reflexivity.
  exfalso. eapply Hd. reflexivity.
Qed.

Lemma non_mapping_response_witness :
  process_user_message (net_reply (PStr text_array)) loads dumps_keys utf8_stdout
    "a big mac" fresh
  = ({| self := {| api_key := "sk-key";
                   model := "meta-llama/llama-3.2-3b-instruct:free";
                   menu := default_menu;
                   current_order := [];
                   history := [message "user" (PStr "a big mac");
                               message "assistant"
                                 (PStr "Sorry, I encountered an error. Please try again.")] |};
        stdout := [PrintError "Error processing message: " AttributeError] |},
     Ok ([], PStr "Sorry, I encountered an error. Please try again.")).
Proof.
  apply (non_mapping_response (net_reply (PStr text_array)) loads dumps_keys utf8_stdout
           "a big mac" fresh (PStr text_array) text_array parsed_array);
    [reflexivity | reflexivity | reflexivity | discriminate].
Defined.

(** C6, as stated, fails: the response [["Big Mac"]] parses to an array;
    the order of two Big Macs is not replaced and the message returned is
    not the default one. *)
Lemma non_mapping_response_array :
  clean_text (PStr text_array) = Ok text_array /\
  loads text_array = Ok (PList [PStr "Big Mac"]) /\
  process_user_message (net_reply (PStr text_array)) loads dumps_keys utf8_stdout
    "a big mac" two_big_macs
  = ({| self := with_state (self two_big_macs) [("Big Mac", PInt 2)]
                  (history (self two_big_macs)
                   ++ [message "user" (PStr "a big mac");
                       message "assistant"
                         (PStr "Sorry, I encountered an error. Please try again.")]);
        stdout := [PrintError "Error processing message: " AttributeError] |},
     Ok ([("Big Mac", PInt 2)],
         PStr "Sorry, I encountered an error. Please try again.")).
Proof. repeat split. Qed.

(** ** What reaches the caller of a turn *)

(** C2, as the code has it. The remote call is made before the [try]
    statement: when it raises, the exception reaches the caller and the
    order is unchanged.  When it returns, whatever it returns and whatever
    [json.loads] does, the turn returns a pair of the current order
    (unchanged, or replaced by a filtered new order) and a message, as long
    as the printing of the raw text in the handler of [JSONDecodeError]
    does not itself raise; that printing raising, the turn raises
    [UnicodeEncodeError] with the order unchanged. *)
Theorem turn_outcome requests_post json_loads json_dumps stdout_encodes
    user_input w :
  let r := process_user_message requests_post json_loads json_dumps
             stdout_encodes user_input w in
  match remote_reply requests_post json_dumps user_input w with
  | Ok response_text =>
      if raw_print_fails json_loads stdout_encodes response_text
      then snd r = Raise UnicodeEncodeError /\
           current_order (self (fst r)) = current_order (self w)
      else
        exists ai_message,
          snd r = Ok (current_order (self (fst r)), ai_message) /\
          (current_order (self (fst r)) = current_order (self w) \/
           exists items,
             current_order (self (fst r))
             = filter (fun kv => dict_mem (fst kv) (menu (self w))) items)
  | Raise e =>
      snd r = Raise e /\ current_order (self (fst r)) = current_order (self w)
  end.
Proof.
  cbv zeta. turn_cases.
  destruct (remote_reply _ _ _ _) as [response_text|e]; [|split; reflexivity].
  rewrite raw_print_fails_interpret.
  destruct (interpret _ _) as [[ai_message items]|e].
  - exists ai_message. split; [reflexivity|]. right. exists items. reflexivity.
  - destruct (_ && _); [split; reflexivity|].
    exists (PStr (handler_apology e)). split; [reflexivity|]. left. reflexivity.
Qed.

(** C2, as stated, fails: with the connection refused, the turn raises. *)
Lemma turn_raises_when_network_down :
  snd (process_user_message net_down loads dumps_keys
      utf8_stdout "a coke" fresh)
  = Raise (PlainException "OpenRouter API error: Connection refused").
Proof. reflexivity. Qed.

(** C3, as the code has it. When the remote call returns, the turn appends
    exactly two entries to the history, the user entry with the input text
    and then the assistant entry with the message returned, as long as the
    printing of the raw text in the handler of [JSONDecodeError] does not
    itself raise; when the remote call raises, or that printing does, only
    the user entry has been appended. *)
Theorem history_growth requests_post json_loads json_dumps stdout_encodes
    user_input w :
  let r := process_user_message requests_post json_loads json_dumps
             stdout_encodes user_input w in
  let h' := history (self (fst r)) in
  let one_entry :=
    h' = (history (self w) ++ [message "user" (PStr user_input)])%list /\
    List.length h' = (List.length (history (self w)) + 1)%nat in
  match remote_reply requests_post json_dumps user_input w with
  | Ok response_text =>
      if raw_print_fails json_loads stdout_encodes response_text
      then snd r = Raise UnicodeEncodeError /\ one_entry
      else
        exists ai_message,
          snd r = Ok (current_order (self (fst r)), ai_message) /\
          h' = (history (self w) ++ [message "user" (PStr user_input);
                                     message "assistant" ai_message])%list /\
          List.length h' = (List.length (history (self w)) + 2)%nat
  | Raise _ => one_entry
  end.
Proof.
  cbv zeta. turn_cases.
  destruct (remote_reply _ _ _ _) as [response_text|e].
  - rewrite raw_print_fails_interpret.
    destruct (interpret _ _) as [[ai_message items]|e];
      [exists ai_message | destruct (_ && _);
                           [|exists (PStr (handler_apology e))]];
      cbn [fst snd self history current_order with_state];
      rewrite length_app; auto.
  - cbn [fst snd self history current_order with_state].
    rewrite length_app; auto.
Qed.

(** C3, as stated, fails: with the connection refused, the history gains the
    user entry alone. *)
Lemma history_after_network_down :
  history (self (fst (process_user_message net_down loads dumps_keys utf8_stdout
                        "a coke" two_big_macs)))
  = (history (self two_big_macs) ++ [message "user" (PStr "a coke")])%list /\
  List.length (history (self two_big_macs)) = 2%nat /\
  List.length (history (self (fst (process_user_message net_down loads
                                     dumps_keys
                                         utf8_stdout "a coke" two_big_macs))))
  = 3%nat.
Proof. repeat split. Qed.

(** ** Errors of the remote client *)

(** C7, as the code has it. A [RequestException] raised by [requests.post],
    by [raise_for_status()] or by [json()] is replaced by an [Exception]
    whose message is ["OpenRouter API error: "] followed by the text of the
    original; a body that is a mapping without [choices], or with an empty
    [choices], raises [ValueError("Unexpected API response format")], which
    the handler does not catch; no [RequestException] leaves the client. *)
Theorem remote_errors requests_post api_key model messages temperature :
  let req := openrouter_request api_key model messages temperature in
  let r := get_response_from_messages_openrouter requests_post api_key model
             messages temperature in
  (forall str_e,
      requests_post req = Raise (RequestException str_e) ->
      r = Raise (PlainException ("OpenRouter API error: " ++ str_e))) /\
  (forall response str_e,
      requests_post req = Ok response ->
      raise_for_status response = Raise (RequestException str_e) ->
      r = Raise (PlainException ("OpenRouter API error: " ++ str_e))) /\
  (forall response str_e,
      requests_post req = Ok response ->
      raise_for_status response = Ok tt ->
      json response = Raise (RequestException str_e) ->
      r = Raise (PlainException ("OpenRouter API error: " ++ str_e))) /\
  (forall response d,
      requests_post req = Ok response ->
      raise_for_status response = Ok tt ->
      json response = Ok (PDict d) ->
      dict_get "choices" d = None \/
      (exists choices, dict_get "choices" d = Some choices /\
                       py_len choices = Ok 0) ->
      r = Raise (ValueError "Unexpected API response format")) /\
  (forall str_e, r <> Raise (RequestException str_e)).
Proof.
  cbv zeta. unfold get_response_from_messages_openrouter.
  repeat split.
  - intros s H. rewrite H. reflexivity.
  - intros response s H1 H2. rewrite H1. cbn [rbind]. rewrite H2. reflexivity.
  - intros response s H1 H2 H3. rewrite H1. cbn [rbind]. rewrite H2.
    cbn [rbind]. rewrite H3. reflexivity.
  - intros response d H1 H2 H3 H4. rewrite H1. cbn [rbind]. rewrite H2.
    cbn [rbind]. rewrite H3. cbn [rbind py_in py_getitem]. unfold dict_mem.
    destruct H4 as [H4 | [choices [H4 H5]]]; rewrite H4; cbn [rbind].
    + reflexivity.
    + rewrite H5. reflexivity.
  - intros s. unfold rtry.
    match goal with |- context [match ?b with Ok _ => _ | Raise _ => _ end] =>
      destruct b as [v|e] end; [discriminate|].
    destruct e; cbn; discriminate.
Qed.

Lemma remote_errors_witness :
  get_response_from_messages_openrouter net_down "sk-key" "m" [] temperature
  = Raise (PlainException "OpenRouter API error: Connection refused") /\
  get_response_from_messages_openrouter (net_status "502 Server Error")
    "sk-key" "m" [] temperature
  = Raise (PlainException "OpenRouter API error: 502 Server Error") /\
  get_response_from_messages_openrouter (net_body (PDict [("choices", PList [])]))
    "sk-key" "m" [] temperature
  = Raise (ValueError "Unexpected API response format").
Proof.
  split; [|split].
  - apply (remote_errors net_down "sk-key" "m" [] temperature). reflexivity.
  - pose proof (remote_errors (net_status "502 Server Error") "sk-key" "m" []
                  temperature) as [_ [H _]].
    eapply H; reflexivity.
  - pose proof (remote_errors (net_body (PDict [("choices", PList [])]))
                  "sk-key" "m" [] temperature) as [_ [_ [_ [H _]]]].
    eapply H; try reflexivity. right. eexists. split; reflexivity.
Defined.

(** C7, as stated, fails: a body without [choices] makes the client raise a
    [ValueError], not the exception that wraps transport and status
    errors. *)
Lemma missing_choices_not_normalised :
  get_response_from_messages_openrouter
    (net_body (PDict [("error", PStr "rate limited")])) "sk-key" "m" []
    temperature
  = Raise (ValueError "Unexpected API response format") /\
  ~ (exists msg,
        get_response_from_messages_openrouter
          (net_body (PDict [("error", PStr "rate limited")])) "sk-key" "m" []
          temperature
        = Raise (PlainException msg)).
Proof.
  split; [reflexivity|]. intros [msg H]. discriminate H.
Qed.

(** ** The total *)

Lemma calculate_total_pure w : fst (calculate_total w) = w.
Proof.
  unfold calculate_total, bind, get_self, lift, ret.
  destruct (calculate_total_loop _ _ _); reflexivity.
Qed.

Lemma all_int_get (m : dict) k p :
  all_int m = true -> dict_get k m = Some p ->
  exists z, int_of p = Some z.
Proof.
  induction m as [|[k' v] m IH]; [discriminate|].
  cbn [all_int forallb snd dict_get]. intros Hm Hg.
  apply andb_prop in Hm. destruct Hm as [Hv Hm].
  destruct (String.eqb k k').
  - injection Hg as ->. destruct (int_of p) as [z|]; [eauto | discriminate].
  - apply IH; assumption.
Qed.

Lemma as_number_int v z : int_of v = Some z -> as_number v = Some (NInt z).
Proof. destruct v; cbn; congruence. Qed.

Lemma calculate_total_loop_int (m items : dict) (t : Z) :
  all_int m = true -> all_int items = true ->
  calculate_total_loop m items (NInt t)
  = Ok (NInt (t + sum_Z (map (line_total m) items))).
Proof.
  intros Hm. revert t.
  induction items as [|[item qty] items IH]; intros t Hi.
  - cbn. rewrite Z.add_0_r. reflexivity.
  - cbn [all_int forallb snd] in Hi. apply andb_prop in Hi.
    destruct Hi as [Hq Hi].
    destruct (int_of qty) as [q|] eqn:Eq; [|discriminate].
    cbn [calculate_total_loop map sum_Z fold_right].
    unfold line_total at 1. cbn [fst snd int_or_zero]. rewrite Eq.
    destruct (dict_get item m) as [price|] eqn:Eg.
    + destruct (all_int_get m item price Hm Eg) as [p Ep].
      unfold py_mul. rewrite (as_number_int _ _ Ep), (as_number_int _ _ Eq).
      cbn [arith rbind of_number py_add as_number int_or_zero].
      rewrite Ep. rewrite (IH _ Hi). f_equal. f_equal.
      unfold sum_Z. lia.
    + unfold py_mul. rewrite (as_number_int _ _ Eq).
      cbn [as_number arith rbind of_number py_add int_or_zero].
      rewrite (IH _ Hi). f_equal. f_equal. unfold sum_Z. lia.
Qed.

Lemma accumulate_raise (m items : dict) e :
  fold_left (accumulate m) items (Raise e) = Raise e.
Proof. induction items as [|kv items IH]; [reflexivity | exact IH]. Qed.

Lemma calculate_total_loop_fold (m items : dict) (t : number) :
  calculate_total_loop m items t = fold_left (accumulate m) items (Ok t).
Proof.
  revert t. induction items as [|[item qty] items IH]; intros t; [reflexivity|].
  cbn [calculate_total_loop fold_left]. unfold accumulate at 2.
  cbn [rbind fst snd].
  destruct (py_mul _ qty) as [product|e]; cbn [rbind];
    [|symmetry; apply accumulate_raise].
  destruct (py_add t product) as [t'|e]; cbn [rbind];
    [apply IH | symmetry; apply accumulate_raise].
Qed.

Lemma sum_Z_permutation (l l' : list Z) :
  Permutation l l' -> sum_Z l = sum_Z l'.
Proof.
  induction 1; cbn [sum_Z fold_right] in *; unfold sum_Z in *; lia.
Qed.

Lemma all_int_permutation (d d' : dict) :
  Permutation d d' -> all_int d = true -> all_int d' = true.
Proof.
  unfold all_int. intros Hp Hd. apply forallb_forall. intros kv Hin.
  rewrite forallb_forall in Hd. apply Hd.
  apply Permutation_in with (l := d'); [symmetry; exact Hp | exact Hin].
Qed.

(** C8, as the code has it. [calculate_total] changes nothing and
    accumulates, from 0 and in the iteration order of the order, the menu
    price (0 for an item absent from the menu) times the quantity of each
    entry; when the prices of the menu and the quantities of the order are
    integers the result is the exact sum of quantity times price, and it
    does not depend on the order in which the entries are iterated. *)
Theorem calculate_total_sum (w : world) :
  fst (calculate_total w) = w /\
  snd (calculate_total w)
  = rbind (fold_left (accumulate (menu (self w))) (current_order (self w))
             (Ok (NInt 0)))
      (fun total => Ok (of_number total)) /\
  (all_int (menu (self w)) = true ->
   all_int (current_order (self w)) = true ->
   snd (calculate_total w)
   = Ok (PInt (sum_Z (map (line_total (menu (self w))) (current_order (self w)))))
   /\
   forall order' : dict,
     Permutation (current_order (self w)) order' ->
     snd (calculate_total (fst (set_current_order order' w)))
     = snd (calculate_total w)).
Proof.
  split; [apply calculate_total_pure|]. split.
  { unfold calculate_total, bind, get_self, lift, ret.
    rewrite calculate_total_loop_fold.
    destruct (fold_left _ _ _); reflexivity. }
  intros Hm Ho.
  assert (Hsum : forall w0, all_int (menu (self w0)) = true ->
                            all_int (current_order (self w0)) = true ->
            snd (calculate_total w0)
            = Ok (PInt (sum_Z (map (line_total (menu (self w0)))
                                 (current_order (self w0)))))).
  { intros w0 H1 H2. unfold calculate_total, bind, get_self, lift, ret.
    rewrite (calculate_total_loop_int _ _ 0 H1 H2). reflexivity. }
  split; [apply Hsum; assumption|].
  intros order' Hp. rewrite (Hsum w Hm Ho). rewrite Hsum.
  - cbn [fst set_current_order self menu current_order].
    f_equal. f_equal. apply sum_Z_permutation. symmetry.
    apply Permutation_map, Hp.
  - exact Hm.
  - cbn [fst set_current_order self current_order].
    apply (all_int_permutation _ _ Hp Ho).
Qed.

Lemma calculate_total_sum_witness :
  snd (calculate_total (with_order default_menu [("Big Mac", PInt 2); ("Coke", PInt 1)]))
  = Ok (PInt 12) /\
  snd (calculate_total (with_order default_menu [("Coke", PInt 1); ("Big Mac", PInt 2)]))
  = Ok (PInt 12).
Proof.
  pose proof (calculate_total_sum
                (with_order default_menu [("Big Mac", PInt 2); ("Coke", PInt 1)]))
    as [_ [_ H]].
  destruct (H eq_refl eq_refl) as [Hsum Hperm].
  split; [exact Hsum|].
  exact (eq_trans (Hperm [("Coke", PInt 1); ("Big Mac", PInt 2)]
                     (perm_swap _ _ _)) Hsum).
Defined.

(** C8, as stated, fails: with the binary64 prices 0.1, 0.2 and 0.3 and one
    of each item, the total is 0.6000000000000001 when the entries are
    iterated in one order and 0.6 when they are iterated in the reverse
    order. *)
Lemma calculate_total_float_iteration_order :
  Permutation order_forward order_backward /\
  snd (calculate_total (with_order float_menu order_forward))
  = Ok (PFloat 0x1.3333333333334p-1) /\
  snd (calculate_total (with_order float_menu order_backward))
  = Ok (PFloat 0x1.3333333333333p-1) /\
  snd (calculate_total (with_order float_menu order_forward))
  <> snd (calculate_total (with_order float_menu order_backward)).
Proof.
  split; [|split; [|split]].
  - unfold order_forward, order_backward.
    apply Permutation_rev with (l := [("Dip", PInt 1); ("Mint", PInt 1);
                                      ("Cookie", PInt 1)]).
  - vm_compute. reflexivity.
  - vm_compute. reflexivity.
  - intros H.
    apply (f_equal (fun r => match r with
                             | Ok (PFloat f) =>
                                 PrimFloat.eqb f 0x1.3333333333333p-1
                             | _ => false
                             end)) in H.
    vm_compute in H. discriminate H.
Qed.

(** ** Clearing *)

(** C9. [clear_order] empties the order and the history and leaves the
    API key, the model, the menu and the standard output as they were, so
    that the next remote call is made with the same key, model and
    temperature; a second call in succession changes nothing more. *)
Theorem clear_order_effect (w : world) :
  clear_order w
  = ({| self := {| api_key := api_key (self w); model := model (self w);
                   menu := menu (self w);
                   current_order := []; history := [] |};
        stdout := stdout w |}, Ok tt) /\
  (forall requests_post json_dumps user_input,
      remote_reply requests_post json_dumps user_input (fst (clear_order w))
      = get_response_from_messages_openrouter requests_post
          (api_key (self w)) (model (self w))
          (request_messages json_dumps
             (with_state (self w) [] [message "user" (PStr user_input)]))
          temperature) /\
  clear_order (fst (clear_order w)) = clear_order w.
Proof. repeat split. Qed.

(** * Further properties of the code *)

(** ** The remote client on well-formed and ill-formed bodies *)

(** X1. When the status check passes and the body is a mapping whose
    [choices] is a list with a first element of the expected shape, the
    client returns the [content] of that first choice's [message] as it is,
    whatever value it is and whatever else the body holds. *)
Theorem client_returns_first_choice requests_post api_key model messages
    temperature response body choice rest msg content :
  requests_post (openrouter_request api_key model messages temperature)
  = Ok response ->
  raise_for_status response = Ok tt ->
  json response = Ok (PDict body) ->
  dict_get "choices" body = Some (PList (PDict choice :: rest)) ->
  dict_get "message" choice = Some (PDict msg) ->
  dict_get "content" msg = Some content ->
  get_response_from_messages_openrouter requests_post api_key model messages
    temperature
  = Ok content.
Proof.
  intros Hp Hs Hj Hc Hm Hx. unfold get_response_from_messages_openrouter.
  rewrite Hp. cbn [rbind]. rewrite Hs. cbn [rbind]. rewrite Hj.
  cbn [rbind py_in py_getitem]. unfold dict_mem. rewrite Hc.
  cbn [rbind py_len List.length]. cbn [Z.of_nat Z.ltb Z.compare].
  cbn [rbind py_first py_getitem Pos.of_succ_nat]. rewrite Hm.
  cbn [rbind py_getitem]. rewrite Hx. reflexivity.
Qed.

Lemma client_returns_first_choice_witness :
  get_response_from_messages_openrouter (net_reply (PStr text_mixed)) "sk-key"
    "m" [message "user" (PStr "two big macs")] temperature
  = Ok (PStr text_mixed).
Proof.
  eapply (client_returns_first_choice (net_reply (PStr text_mixed)) "sk-key"
            "m" [message "user" (PStr "two big macs")] temperature);
    reflexivity.
Defined.

(** X2. An exception that is not a [RequestException], raised by
    [requests.post], by [raise_for_status()] or by [json()], leaves the
    client unchanged: the handler wraps [RequestException] only. *)
Theorem client_passes_other_errors requests_post api_key model messages
    temperature e :
  is_RequestException e = false ->
  requests_post (openrouter_request api_key model messages temperature)
  = Raise e \/
  (exists response,
      requests_post (openrouter_request api_key model messages temperature)
      = Ok response /\
      (raise_for_status response = Raise e \/
       raise_for_status response = Ok tt /\ json response = Raise e)) ->
  get_response_from_messages_openrouter requests_post api_key model messages
    temperature
  = Raise e.
Proof.
  intros He H. unfold get_response_from_messages_openrouter.
  destruct H as [Hp | [response [Hp [Hs | [Hs Hj]]]]]; rewrite Hp; cbn [rbind].
  - unfold rtry. rewrite He. reflexivity.
  - rewrite Hs. cbn [rbind]. unfold rtry. rewrite He. reflexivity.
  - rewrite Hs. cbn [rbind]. rewrite Hj. cbn [rbind]. unfold rtry.
    rewrite He. reflexivity.
Qed.

Lemma client_passes_other_errors_witness :
  get_response_from_messages_openrouter
    (fun _ => Ok {| raise_for_status := Ok tt;
                    json := Raise (ValueError "Expecting value") |})
    "sk-key" "m" [] temperature
  = Raise (ValueError "Expecting value").
Proof.
  apply (client_passes_other_errors
           (fun _ => Ok {| raise_for_status := Ok tt;
                           json := Raise (ValueError "Expecting value") |})
           "sk-key" "m" [] temperature (ValueError "Expecting value"));
    [reflexivity|].
  right. eexists. split; [reflexivity|]. right. split; reflexivity.
Defined.

(** X3. With a non-empty [choices] list whose first choice is a mapping,
    a missing [message] key, or a [message] mapping without [content], makes
    the client raise [KeyError], which is not wrapped. *)
Theorem client_missing_key requests_post api_key model messages temperature
    response body choice rest :
  requests_post (openrouter_request api_key model messages temperature)
  = Ok response ->
  raise_for_status response = Ok tt ->
  json response = Ok (PDict body) ->
  dict_get "choices" body = Some (PList (PDict choice :: rest)) ->
  dict_get "message" choice = None \/
  (exists msg, dict_get "message" choice = Some (PDict msg) /\
               dict_get "content" msg = None) ->
  get_response_from_messages_openrouter requests_post api_key model messages
    temperature
  = Raise KeyError.
Proof.
  intros Hp Hs Hj Hc H. unfold get_response_from_messages_openrouter.
  rewrite Hp. cbn [rbind]. rewrite Hs. cbn [rbind]. rewrite Hj.
  cbn [rbind py_in py_getitem]. unfold dict_mem. rewrite Hc.
  cbn [rbind py_len List.length]. cbn [Z.of_nat Z.ltb Z.compare].
  cbn [rbind py_first py_getitem Pos.of_succ_nat].
  destruct H as [Hm | [msg [Hm Hx]]]; rewrite Hm; cbn [rbind py_getitem].
  - reflexivity.
  - rewrite Hx. reflexivity.
Qed.

Lemma client_missing_key_witness :
  get_response_from_messages_openrouter
    (net_body (PDict [("choices", PList [PDict [("finish_reason", PStr "error")]])]))
    "sk-key" "m" [] temperature
  = Raise KeyError.
Proof.
  eapply (client_missing_key
            (net_body (PDict [("choices",
                               PList [PDict [("finish_reason", PStr "error")]])]))
            "sk-key" "m" [] temperature); try reflexivity.
  left. reflexivity.
Defined.

(** X4. The client returns a value only when [requests.post] returned a
    response, its status check passed and its body was decoded and holds
    [choices]: in every other case it raises. *)
Theorem client_returns_only_after_checks requests_post api_key model messages
    temperature v :
  get_response_from_messages_openrouter requests_post api_key model messages
    temperature
  = Ok v ->
  exists response body,
    requests_post (openrouter_request api_key model messages temperature)
    = Ok response /\
    raise_for_status response = Ok tt /\
    json response = Ok body /\
    py_in "choices" body = Ok true.
Proof.
  unfold get_response_from_messages_openrouter. intros H.
  destruct (requests_post _) as [response|e]; cbn [rbind] in H.
  2:{ unfold rtry in H. destruct e; discriminate H. }
  destruct (raise_for_status response) as [[]|e] eqn:Hs; cbn [rbind] in H.
  2:{ unfold rtry in H. destruct e; discriminate H. }
  destruct (json response) as [body|e] eqn:Hj; cbn [rbind] in H.
  2:{ unfold rtry in H. destruct e; discriminate H. }
  exists response, body. repeat split; try assumption.
  destruct (py_in "choices" body) as [[|]|e]; cbn [rbind] in H.
  - reflexivity.
  - discriminate H.
  - unfold rtry in H. destruct e; discriminate H.
Qed.

Lemma client_returns_only_after_checks_witness :
  exists response body,
    net_reply (PStr text_bare) (openrouter_request "sk-key" "m" [] temperature)
    = Ok response /\
    raise_for_status response = Ok tt /\
    json response = Ok body /\
    py_in "choices" body = Ok true.
Proof.
  apply (client_returns_only_after_checks (net_reply (PStr text_bare)) "sk-key"
           "m" [] temperature (PStr text_bare)).
  reflexivity.
Defined.

(** ** The request of a turn *)

Lemma last_n_snoc {A} (n : nat) (l : list A) (x : A) :
  last_n (S n) (l ++ [x]) = (last_n n l ++ [x])%list.
Proof.
  unfold last_n. rewrite length_app. cbn [List.length].
  replace (List.length l + 1 - S n)%nat with (List.length l - n)%nat by lia.
  rewrite skipn_app.
  replace (List.length l - n - List.length l)%nat with 0%nat by lia.
  reflexivity.
Qed.

Lemma last_n_length {A} (n : nat) (l : list A) :
  List.length (last_n n l) = Nat.min n (List.length l).
Proof. unfold last_n. rewrite length_skipn. lia. Qed.

Lemma last_n_exact {A} (l tail : list A) :
  last_n (List.length tail) (l ++ tail) = tail.
Proof.
  unfold last_n. rewrite length_app.
  replace (List.length l + List.length tail - List.length tail)%nat
    with (List.length l) by lia.
  rewrite skipn_app, skipn_all, Nat.sub_diag. reflexivity.
Qed.

(** X5. The message list of a turn's request starts with the system
    prompt built from the current menu and order, ends with the user entry
    just appended, and holds at most four messages however long the history
    is; with two or more earlier entries it is the prompt, the last two of
    them and the user entry. *)
Theorem turn_request_messages json_dumps user_input w :
  let msgs := request_messages json_dumps (self (after_user_entry user_input w)) in
  hd_error msgs
  = Some (message "system" (PStr (get_system_prompt json_dumps (self w)))) /\
  last msgs PNone = message "user" (PStr user_input) /\
  (2 <= List.length msgs <= 4)%nat /\
  (forall older a b,
      history (self w) = (older ++ [a; b])%list ->
      msgs = [message "system" (PStr (get_system_prompt json_dumps (self w)));
              a; b; message "user" (PStr user_input)]).
Proof.
  cbv zeta. unfold request_messages, after_user_entry.
  cbn [history_append set_history fst self history].
  rewrite (last_n_snoc 2). repeat split.
  - rewrite app_assoc. apply last_last.
  - cbn [List.length app]. rewrite length_app. cbn [List.length]. lia.
  - cbn [List.length app]. rewrite length_app, last_n_length.
    cbn [List.length]. lia.
  - intros older a b Hh. rewrite Hh.
    pose proof (last_n_exact older [a; b]) as E. cbn [List.length] in E.
    rewrite E. reflexivity.
Qed.

(** X6. A turn consults the network through one request only, the
    chat-completion request with the assistant's key and model, the
    message list above and the temperature 0.1: two networks that answer
    this request alike give the same turn. *)
Theorem turn_single_request post1 post2 json_loads json_dumps
    stdout_encodes user_input w :
  let o := self (after_user_entry user_input w) in
  post1 (openrouter_request (api_key (self w)) (model (self w))
           (request_messages json_dumps o) temperature)
  = post2 (openrouter_request (api_key (self w)) (model (self w))
             (request_messages json_dumps o) temperature) ->
  process_user_message post1 json_loads json_dumps stdout_encodes user_input w
  = process_user_message post2 json_loads json_dumps
      stdout_encodes user_input w.
Proof.
  cbv zeta. intros H. rewrite !process_user_message_cases. cbv zeta.
  assert (Hr : remote_reply post1 json_dumps user_input w
               = remote_reply post2 json_dumps user_input w).
  { unfold remote_reply, get_response_from_messages_openrouter.
    cbv zeta. unfold after_user_entry in *.
    cbn [history_append set_history fst self api_key model] in *.
    rewrite H. reflexivity. }
  rewrite Hr. reflexivity.
Qed.

Lemma turn_single_request_witness :
  process_user_message (net_reply (PStr text_bare)) loads dumps_keys utf8_stdout
    "a big mac" fresh
  = process_user_message
      (fun req => if (req_timeout req =? 30)%Z
                  then net_reply (PStr text_bare) req
                  else net_down req)
      loads dumps_keys utf8_stdout "a big mac" fresh.
Proof.
  apply (turn_single_request (net_reply (PStr text_bare))
           (fun req => if (req_timeout req =? 30)%Z
                       then net_reply (PStr text_bare) req
                       else net_down req)
           loads dumps_keys utf8_stdout "a big mac" fresh).
  reflexivity.
Defined.

Lemma turn_request_messages_witness :
  request_messages dumps_keys (self (after_user_entry "one coke" two_big_macs))
  = [message "system" (PStr (get_system_prompt dumps_keys (self two_big_macs)));
     message "user" (PStr "two big macs and a pizza");
     message "assistant" (PStr "ok");
     message "user" (PStr "one coke")].
Proof.
  pose proof (turn_request_messages dumps_keys "one coke" two_big_macs)
    as [_ [_ [_ H]]].
  apply (H []). reflexivity.
Defined.

(** ** The history and the fixed attributes over many turns *)

Lemma turn_history requests_post json_loads json_dumps stdout_encodes
    user_input w :
  let r := process_user_message requests_post json_loads json_dumps
             stdout_encodes user_input w in
  exists tail,
    history (self (fst r))
    = (history (self w) ++ message "user" (PStr user_input) :: tail)%list /\
    forallb is_turn_entry tail = true /\
    List.length tail
    = match snd r with
      | Ok _ => 1%nat
      | Raise _ => 0%nat
      end.
Proof.
  cbv zeta. turn_cases.
  destruct (remote_reply _ _ _ _) as [response_text|e].
  - destruct (interpret _ _) as [[ai_message items]|e];
      [|destruct (_ && _)]; [eexists [_] | exists [] | eexists [_]];
      repeat split.
  - exists []. repeat split.
Qed.

Lemma turn_fixed_attributes requests_post json_loads json_dumps
    stdout_encodes user_input w :
  let w' := fst (process_user_message requests_post json_loads json_dumps stdout_encodes
                   user_input w) in
  api_key (self w') = api_key (self w) /\
  model (self w') = model (self w) /\
  menu (self w') = menu (self w).
Proof.
  cbv zeta. turn_cases.
  destruct (remote_reply _ _ _ _) as [response_text|e]; [|repeat split].
  destruct (interpret _ _) as [[ai_message items]|e]; [repeat split|].
  destruct (_ && _); repeat split.
Qed.

(** X7. In every reachable world the history consists of entries with
    the two keys [role] and [content] whose role is [user] or [assistant]:
    no system entry and no other shape is ever stored. *)
Theorem history_entries_shape (w : world) :
  reachable w -> forallb is_turn_entry (history (self w)) = true.
Proof.
  induction 1 as [k m mn out | w post loads dumps enc input _ IH | w _ IH
                 | w _ IH].
  - reflexivity.
  - destruct (turn_history post loads dumps enc input w) as [tail [Hh [Ht _]]].
    rewrite Hh, forallb_app, IH. cbn [forallb andb]. rewrite Ht. reflexivity.
  - rewrite calculate_total_pure. exact IH.
  - reflexivity.
Qed.

Lemma history_entries_shape_witness :
  forallb is_turn_entry (history (self two_big_macs)) = true.
Proof.
  apply (history_entries_shape two_big_macs).
  apply reach_turn, reach_init.
Defined.

(** X8. Over any sequence of turns the history only grows, by one entry
    for each turn at least and by two at most; it grows by exactly two for
    each turn when every turn returned to its caller. *)
Theorem history_length_over_turns (ts : list turn) (w : world) :
  let n := List.length ts in
  let len := List.length (history (self w)) in
  let len' := List.length (history (self (run_turns ts w))) in
  (len + n <= len' <= len + 2 * n)%nat /\
  (all_returned ts w = true -> len' = (len + 2 * n)%nat).
Proof.
  cbv zeta. revert w. induction ts as [|t ts IH]; intros w.
  - cbn. split; [lia | intros _; lia].
  - cbn [run_turns all_returned List.length].
    destruct (turn_history (turn_post t) (turn_loads t) (turn_dumps t)
                (turn_encodes t) (turn_input t) w) as [tail [Hh [_ Hl]]].
    specialize (IH (fst (process_user_message (turn_post t) (turn_loads t)
                           (turn_dumps t) (turn_encodes t) (turn_input t) w))).
    rewrite Hh in IH. rewrite length_app in IH. cbn [List.length] in IH.
    destruct IH as [IH1 IH2].
    destruct (process_user_message _ _ _ _ _ w) as [w' [v|e]];
      cbn [fst snd] in *.
    + split; [lia|]. intros Ha. specialize (IH2 Ha). lia.
    + split; [lia | discriminate].
Qed.

Lemma history_length_over_turns_witness :
  List.length (history (self (run_turns
     [{| turn_post := net_reply (PStr text_bare); turn_loads := loads;
         turn_dumps := dumps_keys; turn_encodes := utf8_stdout;
         turn_input := "a big mac" |};
      {| turn_post := net_reply (PStr "Sure!"); turn_loads := loads;
         turn_dumps := dumps_keys; turn_encodes := utf8_stdout;
         turn_input := "and a coke" |}]
     fresh)))
  = 4%nat.
Proof.
  pose proof (history_length_over_turns
     [{| turn_post := net_reply (PStr text_bare); turn_loads := loads;
         turn_dumps := dumps_keys; turn_encodes := utf8_stdout;
         turn_input := "a big mac" |};
      {| turn_post := net_reply (PStr "Sure!"); turn_loads := loads;
         turn_dumps := dumps_keys; turn_encodes := utf8_stdout;
         turn_input := "and a coke" |}]
     fresh) as [_ H].
  apply H. reflexivity.
Defined.

(** X9. No sequence of turns, whatever the turns return or raise,
    changes the API key, the model or the menu of the assistant. *)
Theorem fixed_attributes_over_turns (ts : list turn) (w : world) :
  api_key (self (run_turns ts w)) = api_key (self w) /\
  model (self (run_turns ts w)) = model (self w) /\
  menu (self (run_turns ts w)) = menu (self w).
Proof.
  revert w. induction ts as [|t ts IH]; intros w; [repeat split|].
  cbn [run_turns].
  destruct (IH (fst (process_user_message (turn_post t) (turn_loads t)
                       (turn_dumps t) (turn_encodes t) (turn_input t) w)))
    as [H1 [H2 H3]].
  destruct (turn_fixed_attributes (turn_post t) (turn_loads t) (turn_dumps t)
              (turn_encodes t) (turn_input t) w) as [E1 [E2 E3]].
  rewrite H1, H2, H3, E1, E2, E3. repeat split.
Qed.

(** ** The order installed by a turn *)

Lemma dict_get_filter_absent (m items : dict) k :
  dict_mem k m = false \/ dict_get k items = None ->
  dict_get k (filter (fun kv => dict_mem (fst kv) m) items) = None.
Proof.
  intros H. induction items as [|[k' v] items IH]; [reflexivity|].
  cbn [filter fst]. cbn [dict_get] in H.
  destruct (String.eqb k k') eqn:E.
  - apply String.eqb_eq in E. subst k'.
    destruct H as [H | H]; [|discriminate H].
    rewrite H. apply IH. left. exact H.
  - destruct (dict_mem k' m); [cbn [dict_get]; rewrite E|]; apply IH; exact H.
Qed.

Lemma filter_within (m d : dict) :
  (forall k, In k (dict_keys d) -> dict_mem k m = true) ->
  filter (fun kv => dict_mem (fst kv) m) d = d.
Proof.
  induction d as [|[k v] d IH]; intros H; [reflexivity|].
  cbn [filter fst]. rewrite (H k) by (left; reflexivity).
  f_equal. apply IH. intros k' Hin. apply H. right. exact Hin.
Qed.

Lemma filter_keys_nodup (m d : dict) :
  NoDup (dict_keys d) ->
  NoDup (dict_keys (filter (fun kv => dict_mem (fst kv) m) d)).
Proof.
  unfold dict_keys. induction d as [|[k v] d IH]; intros H; [constructor|].
  cbn [map fst] in H. inversion H as [|? ? Hnin Hd]; subst.
  cbn [filter fst]. destruct (dict_mem k m); [|apply IH, Hd].
  cbn [map fst]. constructor; [|apply IH, Hd].
  intros Hin. apply Hnin. apply in_map_iff in Hin.
  destruct Hin as [[k' v'] [Hk Hin]]. apply filter_In in Hin.
  apply in_map_iff. exists (k', v'). tauto.
Qed.

(** X10. A successful turn replaces the order and does not merge into it:
    an item that is not on the menu, or that the response's order mapping
    does not hold, is absent from the new order, whatever the order held
    before the turn. *)
Theorem order_replaced_not_merged requests_post json_loads json_dumps stdout_encodes
    user_input w response_text clean response_data items k :
  remote_reply requests_post json_dumps user_input w = Ok response_text ->
  clean_text response_text = Ok clean ->
  json_loads clean = Ok response_data ->
  snd (extract (PStr "Order updated.") response_data) = PDict items ->
  dict_mem k (menu (self w)) = false \/ dict_get k items = None ->
  dict_get k (current_order (self (fst (process_user_message requests_post
                                          json_loads json_dumps
                                              stdout_encodes user_input w))))
  = None.
Proof.
  intros Hr Hc Hl Hx Hk. turn_cases. rewrite Hr.
  rewrite (interpret_items _ _ _ _ _ Hc Hl Hx).
  cbn [fst self current_order with_state].
  apply dict_get_filter_absent, Hk.
Qed.

Lemma order_replaced_not_merged_witness :
  dict_get "Big Mac" (current_order (self two_big_macs)) = Some (PInt 2) /\
  dict_get "Big Mac"
    (current_order (self (fst (process_user_message
        (net_reply (PStr "{}")) (loads_of [("{}", PDict [])]) dumps_keys utf8_stdout
        "remove everything" two_big_macs))))
  = None.
Proof.
  split; [reflexivity|].
  apply (order_replaced_not_merged (net_reply (PStr "{}"))
           (loads_of [("{}", PDict [])]) dumps_keys
               utf8_stdout "remove everything"
           two_big_macs (PStr "{}") "{}" (PDict []) [] "Big Mac");
    try reflexivity.
  right. reflexivity.
Defined.

(** X11. In a reachable world, a response whose order mapping is the
    current order leaves the order as it is: the filter removes nothing
    from an order that a turn installed. *)
Theorem echoed_order_kept requests_post json_loads json_dumps
    stdout_encodes user_input w
    response_text clean response_data :
  reachable w ->
  remote_reply requests_post json_dumps user_input w = Ok response_text ->
  clean_text response_text = Ok clean ->
  json_loads clean = Ok response_data ->
  snd (extract (PStr "Order updated.") response_data)
  = PDict (current_order (self w)) ->
  current_order (self (fst (process_user_message requests_post json_loads
                              json_dumps stdout_encodes user_input w)))
  = current_order (self w).
Proof.
  intros Hw Hr Hc Hl Hx. turn_cases. rewrite Hr.
  rewrite (interpret_items _ _ _ _ _ Hc Hl Hx).
  cbn [fst self current_order with_state].
  apply filter_within. apply reachable_within_menu, Hw.
Qed.

Lemma echoed_order_kept_witness :
  current_order (self (fst (process_user_message
      (net_reply (PStr ("{" ++ quoted "Big Mac" ++ ":2}")))
      (loads_of [("{" ++ quoted "Big Mac" ++ ":2}",
                  PDict [("Big Mac", PInt 2)])]) dumps_keys utf8_stdout
      "that is all" two_big_macs)))
  = [("Big Mac", PInt 2)].
Proof.
  apply (echoed_order_kept
           (net_reply (PStr ("{" ++ quoted "Big Mac" ++ ":2}")))
           (loads_of [("{" ++ quoted "Big Mac" ++ ":2}",
                       PDict [("Big Mac", PInt 2)])])
           dumps_keys utf8_stdout "that is all" two_big_macs
           (PStr ("{" ++ quoted "Big Mac" ++ ":2}"))
           ("{" ++ quoted "Big Mac" ++ ":2}") (PDict [("Big Mac", PInt 2)]));
    try reflexivity.
  apply reach_turn, reach_init.
Defined.

(** X12. The keys of the installed order are pairwise distinct whenever
    those of the response's order mapping are, as the keys of a parsed JSON
    object are. *)
Theorem installed_keys_distinct requests_post json_loads json_dumps
    stdout_encodes user_input
    w response_text clean response_data items :
  remote_reply requests_post json_dumps user_input w = Ok response_text ->
  clean_text response_text = Ok clean ->
  json_loads clean = Ok response_data ->
  snd (extract (PStr "Order updated.") response_data) = PDict items ->
  NoDup (dict_keys items) ->
  NoDup (dict_keys (current_order (self (fst (process_user_message
           requests_post json_loads json_dumps stdout_encodes user_input w))))).
Proof.
  intros Hr Hc Hl Hx Hn. turn_cases. rewrite Hr.
  rewrite (interpret_items _ _ _ _ _ Hc Hl Hx).
  cbn [fst self current_order with_state].
  apply filter_keys_nodup, Hn.
Qed.

Lemma installed_keys_distinct_witness :
  NoDup (dict_keys (current_order (self (fst (process_user_message
           (net_reply (PStr text_mixed)) loads dumps_keys
               utf8_stdout "two big macs"
           fresh))))).
Proof.
  apply (installed_keys_distinct (net_reply (PStr text_mixed)) loads dumps_keys utf8_stdout
           "two big macs" fresh (PStr text_mixed) text_mixed parsed_mixed
           [("Big Mac", PInt 2); ("Pizza", PInt 1)]); try reflexivity.
  repeat constructor; cbn; intuition discriminate.
Defined.

(** ** Other failures absorbed by the general handler *)

(** X13. When the content returned by the remote call is not a string
    (a null content, say) the turn ends in the general handler: the order
    is kept and the second apology is returned and recorded. *)
Theorem non_text_reply requests_post json_loads json_dumps
    stdout_encodes user_input w
    response_text :
  remote_reply requests_post json_dumps user_input w = Ok response_text ->
  (forall s, response_text <> PStr s) ->
  let sorry := PStr "Sorry, I encountered an error. Please try again." in
  process_user_message requests_post json_loads json_dumps
      stdout_encodes user_input w
  = ({| self := with_state (self w) (current_order (self w))
                  (history (self w)
                   ++ [message "user" (PStr user_input);
                       message "assistant" sorry]);
        stdout := stdout w ++ [PrintError "Error processing message: "
                                 AttributeError] |},
     Ok (current_order (self w), sorry)).
Proof.
  intros Hr Hs sorry. subst sorry. turn_cases. rewrite Hr.
  unfold interpret, clean_text.
  destruct response_text; try reflexivity.
  exfalso. eapply Hs. reflexivity.
Qed.

Lemma non_text_reply_witness :
  snd (process_user_message (net_reply PNone) loads dumps_keys
      utf8_stdout "a coke"
         two_big_macs)
  = Ok ([("Big Mac", PInt 2)],
        PStr "Sorry, I encountered an error. Please try again.").
Proof.
  rewrite (non_text_reply (net_reply PNone) loads dumps_keys
      utf8_stdout "a coke"
             two_big_macs PNone); [reflexivity | reflexivity | discriminate].
Defined.

(** X14. When [json.loads] raises anything other than [JSONDecodeError]
    on the cleaned text, the general handler takes the turn: the order is
    kept, the second apology is returned and recorded, and the exception is
    printed, not the raw text. *)
Theorem other_parse_error requests_post json_loads json_dumps
    stdout_encodes user_input w
    raw e :
  remote_reply requests_post json_dumps user_input w = Ok (PStr raw) ->
  json_loads (str_strip (str_replace (str_replace raw "```json" "") "```" ""))
  = Raise e ->
  is_JSONDecodeError e = false ->
  let sorry := PStr "Sorry, I encountered an error. Please try again." in
  process_user_message requests_post json_loads json_dumps
      stdout_encodes user_input w
  = ({| self := with_state (self w) (current_order (self w))
                  (history (self w)
                   ++ [message "user" (PStr user_input);
                       message "assistant" sorry]);
        stdout := stdout w ++ [PrintError "Error processing message: " e] |},
     Ok (current_order (self w), sorry)).
Proof.
  intros Hr Hl He sorry. subst sorry. turn_cases. rewrite Hr.
  unfold interpret, clean_text. cbn [method_replace rbind]. rewrite Hl.
  cbn [rbind]. unfold handler_apology, handler_output. rewrite He.
  reflexivity.
Qed.

Lemma other_parse_error_witness :
  snd (process_user_message (net_reply (PStr "[[[[")) 
         (fun _ => Raise (OtherException "RecursionError")) dumps_keys utf8_stdout
         "a coke" two_big_macs)
  = Ok ([("Big Mac", PInt 2)],
        PStr "Sorry, I encountered an error. Please try again.").
Proof.
  rewrite (other_parse_error (net_reply (PStr "[[[["))
             (fun _ => Raise (OtherException "RecursionError")) dumps_keys utf8_stdout
             "a coke" two_big_macs "[[[[" (OtherException "RecursionError"));
    reflexivity.
Defined.

(** ** Code fences *)

Lemma no_backquote_app (s t : string) :
  no_backquote (s ++ t) = no_backquote s && no_backquote t.
Proof.
  induction s as [|c s IH]; [reflexivity|].
  cbn [append no_backquote]. rewrite IH. apply andb_assoc.
Qed.

Lemma append_assoc (s t u : string) : ((s ++ t) ++ u = s ++ (t ++ u))%string.
Proof. induction s as [|c s IH]; cbn [append]; [|rewrite IH]; reflexivity. Qed.

Lemma append_empty (s : string) : (s ++ "" = s)%string.
Proof. induction s as [|c s IH]; cbn [append]; [|rewrite IH]; reflexivity. Qed.

(** A text free of backquotes is copied by a replacement of a fence. *)
Lemma replace_from_plain (old' new t rest : string) :
  no_backquote t = true ->
  replace_from (String "`" old') new 0 (t ++ rest)
  = (t ++ replace_from (String "`" old') new 0 rest)%string.
Proof.
  induction t as [|c t IH]; intros H; [reflexivity|].
  cbn [no_backquote] in H. apply andb_prop in H. destruct H as [Hc Ht].
  cbn [append replace_from String.prefix].
  destruct (ascii_dec "`" c) as [E|E].
  - subst c. discriminate Hc.
  - rewrite (IH Ht). reflexivity.
Qed.

Lemma space_width_le (s : string) : (space_width s <= String.length s)%nat.
Proof.
  destruct s as [|a [|b [|c s]]]; cbn [space_width String.length];
    repeat match goal with
           | |- context [if ?x then _ else _] => destruct x
           end; lia.
Qed.

(** A line feed after a character never completes a whitespace character
    of two or three bytes. *)
Lemma space_width_newline (a : ascii) (s : string) :
  space_width (String a s ++ newline) = space_width (String a s).
Proof.
  unfold newline. change (ascii_of_nat 10) with "010"%char.
  destruct s as [|b [|c s]]; cbn [append space_width];
    destruct (ascii_space (nat_of_ascii a)); reflexivity.
Qed.

Lemma lstrip_from_newline (s : string) (k : nat) :
  (k <= String.length s)%nat ->
  lstrip_from k (s ++ newline)
  = match lstrip_from k s with
    | EmptyString => EmptyString
    | r => (r ++ newline)%string
    end.
Proof.
  revert k. induction s as [|a s IH]; intros k Hk.
  - cbn in Hk. replace k with 0%nat by lia. reflexivity.
  - destruct k as [|k].
    + change (String a s ++ newline)%string with (String a (s ++ newline)).
      cbn [lstrip_from].
      change (String a (s ++ newline)) with (String a s ++ newline)%string.
      rewrite space_width_newline.
      pose proof (space_width_le (String a s)) as Hw.
      destruct (space_width (String a s)) as [|n]; [reflexivity|].
      apply IH. cbn [String.length] in Hw. lia.
    + cbn [append lstrip_from]. apply IH. cbn [String.length] in Hk. lia.
Qed.

Lemma all_space_newline (s : string) :
  all_space (s ++ newline) = all_space s.
Proof.
  unfold all_space, lstrip. rewrite lstrip_from_newline by lia.
  destruct (lstrip_from 0 s); reflexivity.
Qed.

Lemma rstrip_newline (s : string) : rstrip (s ++ newline) = rstrip s.
Proof.
  induction s as [|a s IH]; [reflexivity|].
  change (String a s ++ newline)%string with (String a (s ++ newline)).
  cbn [rstrip].
  change (String a (s ++ newline)) with (String a s ++ newline)%string.
  rewrite all_space_newline, IH. reflexivity.
Qed.

Lemma strip_trailing_newline (s : string) :
  str_strip (s ++ newline) = str_strip s.
Proof.
  unfold str_strip, lstrip. rewrite lstrip_from_newline by lia.
  destruct (lstrip_from 0 s) as [|c r] eqn:E; [reflexivity|].
  apply rstrip_newline.
Qed.

Lemma prefix_append (s rest : string) : String.prefix s (s ++ rest) = true.
Proof.
  induction s as [|c s IH]; [destruct rest; reflexivity|].
  cbn [append String.prefix]. destruct (ascii_dec c c); [exact IH | congruence].
Qed.

Lemma replace_from_skip (old new x rest : string) :
  replace_from old new (String.length x) (x ++ rest)
  = replace_from old new 0 rest.
Proof. induction x as [|c x IH]; [reflexivity | exact IH]. Qed.

(** An occurrence of [old] at the head is replaced by [new]. *)
Lemma replace_from_match (c : ascii) (old' new rest : string) :
  replace_from (String c old') new 0 (String c old' ++ rest)
  = (new ++ replace_from (String c old') new 0 rest)%string.
Proof.
  cbn [append replace_from].
  rewrite (prefix_append (String c old') rest : 
             String.prefix (String c old') (String c (old' ++ rest)) = true).
  cbn [String.length Nat.pred]. rewrite replace_from_skip. reflexivity.
Qed.

(** X15. A response text free of backquotes is cleaned by stripping the
    surrounding whitespace only, and the same text wrapped in a json code
    fence, each fence on a line of its own, is cleaned to the same string
    and so interpreted alike. *)
Theorem fenced_response_cleaned (json_loads : string -> result pyval) (t : string) :
  no_backquote t = true ->
  let fenced := ("```json" ++ newline ++ t ++ newline ++ "```")%string in
  clean_text (PStr t) = Ok (str_strip t) /\
  clean_text (PStr fenced) = Ok (str_strip t) /\
  interpret json_loads (PStr fenced) = interpret json_loads (PStr t).
Proof.
  intros Ht fenced.
  assert (Hplain : clean_text (PStr t) = Ok (str_strip t)).
  { unfold clean_text, method_replace, str_replace. cbn [rbind].
    rewrite <- (append_empty t) at 1.
    rewrite (replace_from_plain "``json" "" t "" Ht). cbn [replace_from].
    rewrite <- (append_empty (t ++ "")) at 1.
    rewrite (replace_from_plain "``" "" (t ++ "") "").
    - cbn [replace_from]. rewrite !append_empty. reflexivity.
    - rewrite append_empty. exact Ht. }
  assert (Hfenced : clean_text (PStr fenced) = Ok (str_strip t)).
  { set (inner := ((newline ++ t) ++ newline)%string).
    assert (Hinner : no_backquote inner = true).
    { unfold inner. rewrite !no_backquote_app, Ht. reflexivity. }
    assert (Hf : fenced = ("```json" ++ inner ++ "```")%string).
    { unfold fenced, inner. rewrite !append_assoc. reflexivity. }
    rewrite Hf. unfold clean_text, method_replace, str_replace. cbn [rbind].
    rewrite (replace_from_match "`" "``json" "" (inner ++ "```")).
    rewrite (replace_from_plain "``json" "" inner "```" Hinner).
    change (replace_from "```json" "" 0 "```") with "```".
    change ("" ++ inner ++ "```")%string with (inner ++ "```" ++ "")%string.
    rewrite (replace_from_plain "``" "" inner ("```" ++ "") Hinner).
    rewrite (replace_from_match "`" "``" "" "").
    change ("" ++ replace_from "```" "" 0 "")%string with "".
    rewrite append_empty. unfold inner.
    rewrite strip_trailing_newline. reflexivity. }
  split; [exact Hplain|]. split; [exact Hfenced|].
  unfold interpret. rewrite Hplain, Hfenced. reflexivity.
Qed.

Lemma fenced_response_cleaned_witness :
  clean_text (PStr (nbsp ++ text_bare ++ nbsp)) = Ok text_bare /\
  clean_text (PStr ("```json" ++ newline ++ (nbsp ++ text_bare ++ nbsp)
                    ++ newline ++ "```"))
  = Ok text_bare.
Proof.
  destruct (fenced_response_cleaned loads (nbsp ++ text_bare ++ nbsp) eq_refl)
    as [H1 [H2 _]].
  split; [exact H1 | exact H2].
Defined.

(** ** The total in the worlds the methods produce *)

(** X16. In a reachable world every item of the order has a price on the
    menu, so the default price 0 of [menu.get(item, 0)] is never the one
    [calculate_total] multiplies by. *)
Theorem ordered_items_priced (w : world) item qty :
  reachable w ->
  In (item, qty) (current_order (self w)) ->
  exists price, dict_get item (menu (self w)) = Some price.
Proof.
  intros Hw Hin.
  assert (Hm : dict_mem item (menu (self w)) = true).
  { apply (reachable_within_menu w Hw). unfold dict_keys.
    apply in_map_iff. exists (item, qty). split; [reflexivity | exact Hin]. }
  unfold dict_mem in Hm.
  destruct (dict_get item (menu (self w))) as [price|];
    [exists price; reflexivity | discriminate Hm].
Qed.

Lemma ordered_items_priced_witness :
  exists price, dict_get "Big Mac" (menu (self two_big_macs)) = Some price.
Proof.
  apply (ordered_items_priced two_big_macs "Big Mac" (PInt 2)).
  - apply reach_turn, reach_init.
  - left. reflexivity.
Defined.

Lemma calculate_total_loop_raises (m items : dict) (t : number) k q :
  In (k, q) items -> as_number q = None ->
  exists e, calculate_total_loop m items t = Raise e.
Proof.
  intros Hin Hq. revert t.
  induction items as [|[item qty] items IH]; intros t; [destruct Hin|].
  cbn [calculate_total_loop].
  set (price := match dict_get item m with Some p => p | None => PInt 0 end).
  destruct Hin as [E | Hin].
  - injection E as _ ->. unfold py_mul. rewrite Hq.
    destruct (as_number price) as [[n|f]|]; cbn [rbind]; eauto.
    destruct q; cbn [py_repeat rbind py_add as_number]; eauto;
      discriminate Hq.
  - destruct (py_mul _ qty) as [product|e]; cbn [rbind]; eauto.
    destruct (py_add t product) as [t'|e]; cbn [rbind]; eauto.
Qed.

(** X17. A quantity that is not a number (a string, a list, a mapping or
    null, all of which the filter lets through) makes [calculate_total]
    raise, and the assistant is left as it was. *)
Theorem calculate_total_rejects_non_number (w : world) item qty :
  In (item, qty) (current_order (self w)) ->
  as_number qty = None ->
  exists e, calculate_total w = (w, Raise e).
Proof.
  intros Hin Hq. unfold calculate_total, bind, get_self, lift.
  destruct (calculate_total_loop_raises (menu (self w)) (current_order (self w))
              (NInt 0) item qty Hin Hq) as [e He].
  exists e. rewrite He. reflexivity.
Qed.

Lemma calculate_total_rejects_non_number_witness :
  exists e,
    calculate_total (with_order default_menu
                       [("Coke", PInt 1); ("Big Mac", PStr "two")])
    = (with_order default_menu [("Coke", PInt 1); ("Big Mac", PStr "two")],
       Raise e).
Proof.
  apply (calculate_total_rejects_non_number
           (with_order default_menu [("Coke", PInt 1); ("Big Mac", PStr "two")])
           "Big Mac" (PStr "two")).
  - right. left. reflexivity.
  - reflexivity.
Defined.

Lemma calculate_total_depends (w w' : world) :
  menu (self w') = menu (self w) ->
  current_order (self w') = current_order (self w) ->
  snd (calculate_total w') = snd (calculate_total w).
Proof.
  intros Hm Ho. unfold calculate_total, bind, get_self, lift.
  rewrite Hm, Ho. destruct (calculate_total_loop _ _ _); reflexivity.
Qed.

(** X18. A turn that does not install an order, because the remote call
    raised or because the response could not be interpreted, leaves the
    result of [calculate_total] as it was before the turn. *)
Theorem failed_turn_keeps_total requests_post json_loads json_dumps
    stdout_encodes user_input w :
  (exists e, remote_reply requests_post json_dumps user_input w = Raise e) \/
  (exists response_text e,
      remote_reply requests_post json_dumps user_input w = Ok response_text /\
      interpret json_loads response_text = Raise e) ->
  snd (calculate_total (fst (process_user_message requests_post json_loads
                               json_dumps stdout_encodes user_input w)))
  = snd (calculate_total w).
Proof.
  intros H. apply calculate_total_depends.
  - apply turn_menu.
  - turn_cases. destruct H as [[e Hr] | [text [e [Hr Hi]]]]; rewrite Hr.
    + reflexivity.
    + rewrite Hi. destruct (_ && _); reflexivity.
Qed.

Lemma failed_turn_keeps_total_witness :
  snd (calculate_total (fst (process_user_message net_down loads dumps_keys utf8_stdout
                               "add a coke" two_big_macs)))
  = Ok (PInt 10).
Proof.
  rewrite (failed_turn_keeps_total net_down loads dumps_keys
      utf8_stdout "add a coke"
             two_big_macs).
  - reflexivity.
  - left. eexists. reflexivity.
Defined.

(** ** Clearing and the next request; bodies that are not mappings *)

(** X19. After [clear_order] the next turn's request carries no earlier
    entry of the conversation: it is the system prompt, built from the menu
    and an empty order, followed by the new user entry alone. *)
Theorem request_after_clear json_dumps user_input (w : world) :
  request_messages json_dumps
    (self (after_user_entry user_input (fst (clear_order w))))
  = [message "system"
       (PStr (get_system_prompt json_dumps (with_state (self w) [] [])));
     message "user" (PStr user_input)].
Proof. reflexivity. Qed.


